(** * run_nfl_update.py: Google Sheet -> Firestore synchronisation

    A shallow embedding of [fetch_sheet_data] and [update_firebase] of
    [src/run_nfl_update.py], and the properties of the store writer and of
    the sheet reader that its description states.

    The script works on three kinds of state, and the embedding keeps the
    three apart:
    - pandas [DataFrame] objects, which Python passes by reference and which
      [dropna(inplace=True)] mutates: a heap of frames, addressed by
      location;
    - the Firestore database: a finite map from document paths to document
      bodies;
    - what the program does that an observer can see: the lines it prints
      and the calls it makes on the Firestore client, in order (the trace).

    The Google Sheets and Firestore clients are external.  Their answers are
    parameters of the embedding: a client call either returns or raises, as
    the parameter says. *)

From stdpp Require Import base option strings gmap list pretty.

Local Open Scope string_scope.
Local Open Scope list_scope.

(** ** Settings (the constants at the top of the script) *)

Definition GOOGLE_SHEET_NAME : string := "My_NFL_Betting_Data1".
Definition WORKSHEET_NAME : string := "live_picks_sheets".
Definition FIRESTORE_COLLECTION : string := "live_picks".
Definition KEY_COLUMN : string := "pick_id".

(** ** Cell values and frames *)

(** A cell of a frame.  [NaN] is the missing cell (pandas stores it as the
    float NaN); [Str] is a Python string and [Int] a Python integer.  Other
    floats, booleans and [None] cells are not modelled. *)
Inductive value : Type :=
  | NaN
  | Str (s : string)
  | Int (z : Z).

Global Instance value_eq_dec : EqDecision value.
Proof. solve_decision. Defined.

(** [pandas.isna] on one cell. *)
Definition isna (v : value) : bool :=
  match v with NaN => true | _ => false end.

(** Python's [str(v)]. *)
Definition py_str (v : value) : string :=
  match v with
  | NaN => "nan"
  | Str s => s
  | Int z => pretty z
  end.

(** A [DataFrame]: the column labels and the rows, each row a list of cells
    in column order.  The row index plays no part in the script. *)
Record DataFrame : Type := mkDataFrame {
  columns : list string;
  rows : list (list value)
}.

Global Instance DataFrame_inhabited : Inhabited DataFrame :=
  populate (mkDataFrame [] []).

(** Every row has one cell per column (pandas guarantees it). *)
Definition well_formed (df : DataFrame) : Prop :=
  Forall (fun row => length row = length (columns df)) (rows df).

(** [len(df)]: the number of rows. *)
Definition df_len (df : DataFrame) : nat := length (rows df).

(** [df.empty]: true when any axis has length 0, that is, when there is no
    row or no column. *)
Definition df_empty (df : DataFrame) : bool :=
  match rows df, columns df with
  | [], _ | _, [] => true
  | _, _ => false
  end.

(** ** Python dictionaries: one row as a record *)

(** [d.update(pairs)]: insertion in order, so a later pair with the same
    key replaces the earlier one. *)
Definition dict_update (d : gmap string value) (pairs : list (string * value))
    : gmap string value :=
  foldl (fun d' kv => <[kv.1 := kv.2]> d') d pairs.

(** [dict(pairs)] *)
Definition py_dict (pairs : list (string * value)) : gmap string value :=
  dict_update ∅ pairs.

(** [df.to_dict('records')]: one dictionary per row, from column label to
    cell. *)
Definition to_dict_records (df : DataFrame) : list (gmap string value) :=
  map (fun row => py_dict (zip (columns df) row)) (rows df).

(** ** The pandas operations of the script, on frame values *)

(** What [fillna(value="")] does to one cell. *)
Definition fill (v : value) : value :=
  if isna v then Str "" else v.

(** [df.fillna(value="")]: the frame with every missing cell replaced. *)
Definition fillna (df : DataFrame) : DataFrame :=
  mkDataFrame (columns df) (map (map fill) (rows df)).

(** [df.dropna(how='all')]: the rows in which every cell is missing go. *)
Definition dropna_all (df : DataFrame) : DataFrame :=
  mkDataFrame (columns df)
    (List.filter (fun row => negb (forallb isna row)) (rows df)).

(** ** Exceptions, observable events and the world *)

Inductive exn : Type :=
  | KeyError (key : string)
  | ClientError (what : string).

(** A Firestore document reference: collection and document ID. *)
Definition doc_ref : Type := string * string.

(** One [print] call of the script, with the values its f-string
    interpolates. *)
Inductive message : Type :=
  | Msg_opening_sheet (name : string)
  | Msg_reading_worksheet (name : string)
  | Msg_fetched (n : nat)
  | Msg_fetch_failed (e : exn)
  | Msg_no_data
  | Msg_key_column_not_found (key : string)
  | Msg_available_columns (cols : list string)
  | Msg_connecting (collection : string)
  | Msg_preparing (n : nat)
  | Msg_update_complete
  | Msg_update_failed (e : exn).

(** The messages that report a failure. *)
Definition is_error (m : message) : bool :=
  match m with
  | Msg_fetch_failed _ | Msg_key_column_not_found _ | Msg_update_failed _ => true
  | _ => false
  end.

Inductive event : Type :=
  | Print (m : message)
  | Call_client
  | Call_batch
  | Call_document (ref : doc_ref)
  | Call_set (ref : doc_ref) (body : gmap string value)
  | Call_commit (writes : list (doc_ref * gmap string value)).

(** The events that stage or commit a document write. *)
Definition is_write (e : event) : bool :=
  match e with
  | Call_set _ _ | Call_commit _ => true
  | _ => false
  end.

(** Locations of frames on the heap. *)
Abbreviation loc := nat (only parsing).

Record world : Type := mkWorld {
  heap : list DataFrame;
  store : gmap doc_ref (gmap string value);
  trace : list event
}.

(** ** The monad of the script: state and exceptions *)

Inductive result (A : Type) : Type :=
  | Ok (a : A)
  | Raise (e : exn).
Arguments Ok {A} a.
Arguments Raise {A} e.

Definition M (A : Type) : Type := world -> result A * world.

Definition ret {A} (a : A) : M A := fun w => (Ok a, w).

Definition bind {A B} (m : M A) (k : A -> M B) : M B :=
  fun w =>
    match m w with
    | (Ok a, w') => k a w'
    | (Raise e, w') => (Raise e, w')
    end.

Definition raise {A} (e : exn) : M A := fun w => (Raise e, w).

(** [try: body except Exception as e: handler(e)]. *)
Definition try_except {A} (body : M A) (handler : exn -> M A) : M A :=
  fun w =>
    match body w with
    | (Ok a, w') => (Ok a, w')
    | (Raise e, w') => handler e w'
    end.

Notation "x <- m ;; k" := (bind m (fun x => k))
  (at level 100, m at next level, right associativity).
Notation "m ;;; k" := (bind m (fun _ => k))
  (at level 100, right associativity).

(** Lift an external answer into the monad. *)
Definition of_result {A} (r : result A) : M A := fun w => (r, w).

Definition emit (e : event) : M unit :=
  fun w => (Ok tt, mkWorld (heap w) (store w) (trace w ++ [e])).

Definition print (m : message) : M unit := emit (Print m).

(** The final world of a computation. *)
Definition exec {A} (m : M A) (w : world) : world := (m w).2.

(** *** Frames on the heap *)

(** A new frame object. *)
Definition alloc (df : DataFrame) : M loc :=
  fun w => (Ok (length (heap w)), mkWorld (heap w ++ [df]) (store w) (trace w)).

(** Reading the frame object at [l].  Python has no dangling reference; the
    statements that depend on it require [l] to be a location of the heap. *)
Definition load (l : loc) : M DataFrame :=
  fun w => (Ok (heap w !!! l), w).

(** In-place update of the frame object at [l]. *)
Definition modify (l : loc) (f : DataFrame -> DataFrame) : M unit :=
  fun w => (Ok tt, mkWorld (alter f l (heap w)) (store w) (trace w)).

(** ** The external clients *)

(** *** Google Sheets (gspread) *)

(** A worksheet is known by what [get_as_dataframe(worksheet, header=0)]
    answers for it; a spreadsheet by its worksheets; the client by the
    spreadsheets it can open.  Each of the three calls may raise. *)
Definition worksheet : Type := result DataFrame.
Definition spreadsheet : Type := string -> result worksheet.
Definition gspread_client : Type := string -> result spreadsheet.

(** *** Firestore *)

(** For every call the script makes on the Firestore client, whether the
    call raises, and what.  [None]: the call returns. *)
Record firestore_client : Type := mkFirestore {
  client_raises : option exn;
  batch_raises : option exn;
  document_raises : doc_ref -> option exn;
  set_raises : doc_ref -> gmap string value -> option exn;
  commit_raises : list (doc_ref * gmap string value) -> option exn
}.

(** A client whose calls before the commit do not raise: the writer gets as
    far as [batch.commit()]. *)
Definition stages_all (fs : firestore_client) : Prop :=
  client_raises fs = None /\ batch_raises fs = None /\
  (forall ref, document_raises fs ref = None) /\
  (forall ref body, set_raises fs ref body = None).

(** A client none of whose calls raises. *)
Definition reliable (fs : firestore_client) : Prop :=
  stages_all fs /\ forall writes, commit_raises fs writes = None.

(** An external call: it is recorded, then it returns or raises. *)
Definition call (e : event) (answer : option exn) : M unit :=
  emit e ;;;
  match answer with
  | None => ret tt
  | Some x => raise x
  end.

(** What a committed batch does to the database: the staged [set]
    operations are applied in the order in which they were staged, each one
    creating the document or replacing it whole. *)
Definition apply_writes (writes : list (doc_ref * gmap string value))
    (s : gmap doc_ref (gmap string value)) : gmap doc_ref (gmap string value) :=
  foldl (fun s' wr => <[wr.1 := wr.2]> s') s writes.

Section firestore.
Variable fs : firestore_client.

(** [firestore.client()] *)
Definition client : M unit := call Call_client (client_raises fs).

(** [db.batch()]: a batch with nothing staged. *)
Definition batch : M (list (doc_ref * gmap string value)) :=
  call Call_batch (batch_raises fs) ;;; ret [].

(** [db.collection(c).document(doc_id)] *)
Definition collection_document (c doc_id : string) : M doc_ref :=
  call (Call_document (c, doc_id)) (document_raises fs (c, doc_id)) ;;;
  ret (c, doc_id).

(** [batch.set(doc_ref, record)]: the batch with one more operation. *)
Definition batch_set (b : list (doc_ref * gmap string value)) (ref : doc_ref)
    (body : gmap string value) : M (list (doc_ref * gmap string value)) :=
  call (Call_set ref body) (set_raises fs ref body) ;;;
  ret (b ++ [(ref, body)]).

(** [batch.commit()].  Firestore commits a batch atomically: when the call
    raises, none of the staged operations is applied. *)
Definition batch_commit (b : list (doc_ref * gmap string value)) : M unit :=
  call (Call_commit b) (commit_raises fs b) ;;;
  fun w => (Ok tt, mkWorld (heap w) (apply_writes b (store w)) (trace w)).
End firestore.

(** ** The script *)

(** [record[key]] *)
Definition getitem (record : gmap string value) (key : string) : M value :=
  match record !! key with
  | Some v => ret v
  | None => raise (KeyError key)
  end.

(** [for x in xs: body], with the variables the body updates as [acc]. *)
Fixpoint for_each {A S} (body : S -> A -> M S) (acc : S) (xs : list A) : M S :=
  match xs with
  | [] => ret acc
  | x :: xs' => acc' <- body acc x ;; for_each body acc' xs'
  end.

(** [fetch_sheet_data(gc)] *)
Definition fetch_sheet_data (gc : gspread_client) : M (option loc) :=
  print (Msg_opening_sheet GOOGLE_SHEET_NAME) ;;;
  try_except
    (sh <- of_result (gc GOOGLE_SHEET_NAME) ;;
     ws <- of_result (sh WORKSHEET_NAME) ;;
     print (Msg_reading_worksheet WORKSHEET_NAME) ;;;
     df <- of_result ws ;;
     data_df <- alloc df ;;
     modify data_df dropna_all ;;;
     df' <- load data_df ;;
     print (Msg_fetched (df_len df')) ;;;
     ret (Some data_df))
    (fun e =>
     print (Msg_fetch_failed e) ;;;
     ret None).

(** The body of the loop of [update_firebase]. *)
Definition stage_record (fs : firestore_client)
    (b : list (doc_ref * gmap string value)) (record : gmap string value)
    : M (list (doc_ref * gmap string value)) :=
  v <- getitem record KEY_COLUMN ;;
  let doc_id := py_str v in
  ref <- collection_document fs FIRESTORE_COLLECTION doc_id ;;
  batch_set fs b ref record.

(** [update_firebase(data_df)]; [None] is Python's [None]. *)
Definition update_firebase (fs : firestore_client) (data_df : option loc) : M unit :=
  match data_df with
  | None => print Msg_no_data
  | Some l =>
    df <- load l ;;
    if df_empty df then print Msg_no_data
    else if negb (bool_decide (KEY_COLUMN ∈ columns df)) then
      print (Msg_key_column_not_found KEY_COLUMN) ;;;
      print (Msg_available_columns (columns df))
    else
      print (Msg_connecting FIRESTORE_COLLECTION) ;;;
      try_except
        (client fs ;;;
         b <- batch fs ;;
         data_df_cleaned <- alloc (fillna df) ;;
         cleaned <- load data_df_cleaned ;;
         let records := to_dict_records cleaned in
         print (Msg_preparing (length records)) ;;;
         b' <- for_each (stage_record fs) b records ;;
         batch_commit fs b' ;;;
         print Msg_update_complete)
        (fun e => print (Msg_update_failed e))
  end.

(** The two calls of the main block, once both clients are ready. *)
Definition sync (fs : firestore_client) (gc : gspread_client) : M unit :=
  sheet_data <- fetch_sheet_data gc ;;
  update_firebase fs sheet_data.

(** ** Worlds and clients used in the examples *)

(** A Firestore client none of whose calls raises. *)
Definition fs_ok : firestore_client :=
  mkFirestore None None (fun _ => None) (fun _ _ => None) (fun _ => None).

(** A Sheets client that answers every request with the frame [df]. *)
Definition gc_of (df : DataFrame) : gspread_client :=
  fun _ => Ok (fun _ => Ok (Ok df)).

(** No frame, no document, nothing observed yet. *)
Definition w0 : world := mkWorld [] ∅ [].

(** The world in which [df] is the only frame, at location 0. *)
Definition world_of (df : DataFrame) : world := mkWorld [df] ∅ [].

(** ** Vocabulary of the statements *)

Global Instance value_inhabited : Inhabited value := populate NaN.

(** The row record after normalisation: every missing value replaced by the
    empty string. *)
Definition normalise (record : gmap string value) : gmap string value :=
  fill <$> record.

(** The document ID the writer computes for a (normalised) record: the
    string form of its key field. *)
Definition doc_id (record : gmap string value) : string :=
  py_str (record !!! KEY_COLUMN).

(** The document reference for that ID. *)
Definition ref_of (record : gmap string value) : doc_ref :=
  (FIRESTORE_COLLECTION, doc_id record).

(** The write staged for a row record of the table: the record normalised,
    under the reference computed from the normalised record. *)
Definition document_of (record : gmap string value) : doc_ref * gmap string value :=
  (ref_of (normalise record), normalise record).

(** The events of staging the writes [ws], one after the other. *)
Definition staging_events (ws : list (doc_ref * gmap string value)) : list event :=
  flat_map (fun wr => [Call_document wr.1; Call_set wr.1 wr.2]) ws.

(** The events of a run of the writer that stages [ws], calls [commit] and
    then prints [last]. *)
Definition attempted_run (ws : list (doc_ref * gmap string value)) (last : message)
    : list event :=
  [Print (Msg_connecting FIRESTORE_COLLECTION); Call_client; Call_batch;
   Print (Msg_preparing (length ws))] ++
  staging_events ws ++
  [Call_commit ws; Print last].

(** The events of a run of the writer that stages and commits [ws]. *)
Definition complete_run (ws : list (doc_ref * gmap string value)) : list event :=
  attempted_run ws Msg_update_complete.

(** The events a computation adds to the trace of [w]. *)
Definition events_of {A} (m : M A) (w : world) : list event :=
  drop (length (trace w)) (trace (exec m w)).

(** The messages printed among some events. *)
Definition printed (evs : list event) : list message :=
  omap (fun e => match e with Print m => Some m | _ => None end) evs.

(** ** Vocabulary of the runs *)

Definition with_trace (w : world) (evs : list event) : world :=
  mkWorld (heap w) (store w) (trace w ++ evs).

(** [m] neither reads nor changes the heap and the database, and what it
    returns and observes does not depend on the world it starts in. *)
Definition trace_only {A} (m : M A) : Prop :=
  forall w, m w = ((m w0).1, with_trace w (trace (m w0).2)).

(** What staging the records returns, and the events it adds, in any
    world. *)
Definition staging_result (fs : firestore_client) (records : list (gmap string value))
    : result (list (doc_ref * gmap string value)) :=
  (for_each (stage_record fs) [] records w0).1.

Definition staging_trace (fs : firestore_client) (records : list (gmap string value))
    : list event :=
  trace (for_each (stage_record fs) [] records w0).2.

(** The write staged for a normalised record. *)
Definition write_of (record : gmap string value) : doc_ref * gmap string value :=
  (ref_of record, record).

(** What the loop may add to the trace, whatever the client answers: calls
    of [document] and calls of [set], each [set] for one of the records,
    under the reference computed from the key field of that record. *)
Definition stages (records : list (gmap string value)) (e : event) : Prop :=
  match e with
  | Call_document _ => True
  | Call_set ref body =>
      body ∈ records /\
      exists v, body !! KEY_COLUMN = Some v /\ ref = (FIRESTORE_COLLECTION, py_str v)
  | _ => False
  end.

(** The world after the writer got as far as the loop. *)
Definition staged_world (fs : firestore_client) (df : DataFrame) (w : world) : world :=
  let records := to_dict_records (fillna df) in
  mkWorld (heap w ++ [fillna df]) (store w)
    (trace w ++
     [Print (Msg_connecting FIRESTORE_COLLECTION); Call_client; Call_batch;
      Print (Msg_preparing (length records))] ++
     staging_trace fs records).

(** The batch staged for a table: one write per row, in table order. *)
Definition batch_of (df : DataFrame) : list (doc_ref * gmap string value) :=
  map document_of (to_dict_records df).

(** The batch that a run on the table [df] commits, if it commits one. *)
Definition committed (fs : firestore_client) (df : DataFrame)
    : option (list (doc_ref * gmap string value)) :=
  if df_empty df then None
  else if bool_decide (KEY_COLUMN ∈ columns df) then
    match client_raises fs, batch_raises fs,
          staging_result fs (to_dict_records (fillna df)) with
    | None, None, Ok b =>
        match commit_raises fs b with None => Some b | Some _ => None end
    | _, _, _ => None
    end
  else None.

(** No document write is staged and no batch is committed. *)
Definition no_writes (evs : list event) : Prop :=
  Forall (fun e => is_write e = false) evs.

(** No failure is reported. *)
Definition no_error (evs : list event) : Prop :=
  Forall (fun m => is_error m = false) (printed evs).

(** ** The example of the description *)

(** The sheet rows [{pick_id: "1", team: "A"}], [{pick_id: "2", team: ""}],
    [{}], [{pick_id: "3"}] as a frame: a field that a row does not have is a
    missing cell.  The cell [c] is the [team] of the second row, which the
    example writes as [""]: the empty string, or a missing cell when the
    frame comes from the sheet reader. *)
Definition example_sheet (c : value) : DataFrame :=
  mkDataFrame ["pick_id"; "team"]
    [ [Str "1"; Str "A"]; [Str "2"; c]; [NaN; NaN]; [Str "3"; NaN] ].

(** The documents that the example says are written. *)
Definition example_documents_described : gmap doc_ref (gmap string value) :=
  list_to_map
    [ ((FIRESTORE_COLLECTION, "1"), py_dict [("pick_id", Str "1"); ("team", Str "A")]);
      ((FIRESTORE_COLLECTION, "2"), py_dict [("pick_id", Str "2"); ("team", Str "")]);
      ((FIRESTORE_COLLECTION, "3"), py_dict [("pick_id", Str "3")]) ].

(** The documents that are written. *)
Definition example_documents : gmap doc_ref (gmap string value) :=
  list_to_map
    [ ((FIRESTORE_COLLECTION, "1"), py_dict [("pick_id", Str "1"); ("team", Str "A")]);
      ((FIRESTORE_COLLECTION, "2"), py_dict [("pick_id", Str "2"); ("team", Str "")]);
      ((FIRESTORE_COLLECTION, "3"), py_dict [("pick_id", Str "3"); ("team", Str "")]) ].

(** ** Set-up and the main block *)

Definition CREDENTIALS_FILE : string := "credentials.json".

(** The scopes requested for the Sheets client. *)
Definition SCOPES : list string :=
  ["https://spreadsheets.google.com/feeds"; "https://www.googleapis.com/auth/drive"].

(** [needle in haystack], on Python strings. *)
Fixpoint str_contains (needle haystack : string) : bool :=
  String.prefix needle haystack ||
  match haystack with
  | EmptyString => false
  | String _ rest => str_contains needle rest
  end.

(** A service-account certificate, loaded from a file. *)
Inductive credential : Type := Credential (path : string).

(** The external calls of the set-up.  The two set-up functions catch every
    exception and use nothing of it but its text, [str(e)]: a call that
    raises answers [inl text].
    - [gspread.service_account(filename=..., scopes=...)]
    - [credentials.Certificate(path)]
    - [firebase_admin.initialize_app(cred)], whose result is not used. *)
Record google_services : Type := mkGoogle {
  service_account : string -> list string -> string + gspread_client;
  certificate : string -> string + credential;
  initialize_app : credential -> option string
}.

(** [authenticate_gspread()]: the client or [None], and the lines printed. *)
Definition authenticate_gspread (g : google_services)
    : option gspread_client * list string :=
  let out := ["Authenticating with Google Sheets..."] in
  match service_account g CREDENTIALS_FILE SCOPES with
  | inr gc => (Some gc, out ++ ["Authentication successful."])
  | inl e => (None, out ++ ["Authentication failed: " +:+ e])
  end.

(** The text of the exception that the [try] block of [initialize_firebase]
    raises, if it raises. *)
Definition initialize_error (g : google_services) : option string :=
  match certificate g CREDENTIALS_FILE with
  | inl e => Some e
  | inr cred => initialize_app g cred
  end.

(** [initialize_firebase()]: the flag returned, and the lines printed. *)
Definition initialize_firebase (g : google_services) : bool * list string :=
  let out := ["Initializing Firebase (Cloud Firestore)..."] in
  match initialize_error g with
  | None => (true, out ++ ["Firebase initialization successful."])
  | Some e =>
      if str_contains "already exists" e
      then (true, out ++ ["Firebase app already initialized."])
      else (false, out ++ ["Firebase initialization failed: " +:+ e])
  end.

(** The line of the main block when a client is not ready. *)
Definition EXITING : string :=
  "Failed to authenticate with Google Sheets or Firebase. Exiting.".

(** The main block.  In [if gc and firebase_ready] a client object counts as
    true and [None] as false.  The block returns the lines that the set-up
    and the block itself print, and what the reader and the writer return and do to the
    world.  The set-up lines come before every event of the reader and the
    writer; when the reader and the writer do not run, the world is the one
    the block started in. *)
Definition main (g : google_services) (fs : firestore_client) (w : world)
    : list string * (result unit * world) :=
  let '(gc, out1) := authenticate_gspread g in
  let '(firebase_ready, out2) := initialize_firebase g in
  match gc with
  | Some gc' =>
      if firebase_ready then (out1 ++ out2, sync fs gc' w)
      else (out1 ++ out2 ++ [EXITING], (Ok tt, w))
  | None => (out1 ++ out2 ++ [EXITING], (Ok tt, w))
  end.

(** Set-up services that answer with the Sheets client [gc] and raise
    nothing. *)
Definition google_ok (gc : gspread_client) : google_services :=
  mkGoogle (fun _ _ => inr gc) (fun path => inr (Credential path)) (fun _ => None).

(** ** Vocabulary of the further properties *)

(** No field of the document body is a missing value. *)
Definition no_missing (body : gmap string value) : Prop :=
  map_Forall (fun _ v => isna v = false) body.

(** No document of the database has a missing value. *)
Definition clean (s : gmap doc_ref (gmap string value)) : Prop :=
  map_Forall (fun _ body => no_missing body) s.

(** The table with the rows of [df1] and then the rows of [df2], under the
    columns of [df1]. *)
Definition append_rows (df1 df2 : DataFrame) : DataFrame :=
  mkDataFrame (columns df1) (rows df1 ++ rows df2).

(** The cells of the key column, row by row. *)
Definition key_cells (df : DataFrame) : list value :=
  map (fun r : gmap string value => r !!! KEY_COLUMN) (to_dict_records df).

(** A cell that is a string / an integer. *)
Definition is_str (v : value) : bool := match v with Str _ => true | _ => false end.
Definition is_int (v : value) : bool := match v with Int _ => true | _ => false end.

(** The exception that stops the reader, if one of its three external
    calls raises. *)
Definition read_error (gc : gspread_client) : option exn :=
  match gc GOOGLE_SHEET_NAME with
  | Raise e => Some e
  | Ok sh =>
      match sh WORKSHEET_NAME with
      | Raise e => Some e
      | Ok (Raise e) => Some e
      | Ok (Ok _) => None
      end
  end.

(** The event is a printed line, not a call of the Firestore client. *)
Definition is_print (e : event) : bool :=
  match e with Print _ => true | _ => false end.

(** * Properties *)

(** ** Tactics *)

(** Symbolic execution: unfold the monad and the primitive operations. *)
Ltac run_monad :=
  repeat (progress (unfold try_except, client, batch, batch_commit,
                      collection_document, batch_set, call, bind, print, emit,
                      ret, raise, alloc, load, modify, of_result; simpl)).

(** A membership in an explicit list of events, unfolded to a disjunction:
    keep the disjunct that is not absurd. *)
Ltac by_cases :=
  intros;
  repeat match goal with
         | H : _ \/ _ |- _ => destruct H as [H|H]
         | H : @eq event _ _ |- _ => discriminate H
         | H : False |- _ => destruct H
         end;
  try done.

(** ** Records *)

Lemma dict_update_fmap (f : value -> value) (cols : list string) row d :
  dict_update (f <$> d) (zip cols (map f row)) = f <$> dict_update d (zip cols row).
Proof.
  unfold dict_update.
  revert row d. induction cols as [|c cols IH]; intros [|v row] d; simpl; try done.
  rewrite <- IH. by rewrite fmap_insert.
Qed.

(** Normalising the table and then taking records is taking records and
    then normalising each. *)
Lemma to_dict_records_fillna df :
  to_dict_records (fillna df) = map normalise (to_dict_records df).
Proof.
  unfold to_dict_records, fillna, normalise, py_dict. simpl.
  rewrite !map_map. apply map_ext. intros row.
  rewrite <- dict_update_fmap. by rewrite fmap_empty.
Qed.

Lemma dict_update_is_Some pairs d k :
  is_Some (dict_update d pairs !! k) <-> k ∈ pairs.*1 \/ is_Some (d !! k).
Proof.
  unfold dict_update. revert d. induction pairs as [|[k' v] pairs IH]; intros d; simpl.
  - rewrite elem_of_nil. tauto.
  - rewrite IH, elem_of_cons. destruct (decide (k' = k)) as [->|Hne].
    + rewrite lookup_insert_eq. split; [intros _|intros _]; [by left; left|right; eauto].
    + rewrite lookup_insert_ne by done. split; [tauto|]. intros [[?|?]|?]; [congruence|tauto|tauto].
Qed.

(** The keys of a record are the labels that have a cell. *)
Lemma py_dict_is_Some pairs k :
  is_Some (py_dict pairs !! k) <-> k ∈ pairs.*1.
Proof.
  unfold py_dict. rewrite dict_update_is_Some, lookup_empty.
  split; [intros [?|[? ?]]; done | by left].
Qed.

Lemma fst_zip_same_length (cols : list string) (row : list value) :
  length row = length cols -> (zip cols row).*1 = cols.
Proof. intros H. apply fst_zip. lia. Qed.

(** In a well-formed frame every record has every column. *)
Lemma to_dict_records_has_column df record k :
  well_formed df -> record ∈ to_dict_records df ->
  (is_Some (record !! k) <-> k ∈ columns df).
Proof.
  unfold well_formed, to_dict_records. intros Hwf Hin.
  apply list_elem_of_In, in_map_iff in Hin as (row & <- & Hrow).
  apply list_elem_of_In in Hrow.
  rewrite Forall_forall in Hwf. specialize (Hwf _ Hrow).
  by rewrite py_dict_is_Some, fst_zip_same_length.
Qed.

(** No value of a normalised record is missing. *)
Lemma normalise_not_na record k v :
  normalise record !! k = Some v -> isna v = false.
Proof.
  unfold normalise. rewrite lookup_fmap. destruct (record !! k) as [u|]; simpl; [|done].
  intros [= <-]. unfold fill. by destruct u.
Qed.

Lemma normalise_lookup record k :
  normalise record !! k = fill <$> record !! k.
Proof. apply lookup_fmap. Qed.

(** ** Committed batches *)

Lemma apply_writes_app ws1 ws2 s :
  apply_writes (ws1 ++ ws2) s = apply_writes ws2 (apply_writes ws1 s).
Proof. unfold apply_writes. apply foldl_app. Qed.

(** A committed batch leaves alone the documents it has no write for. *)
Lemma apply_writes_lookup_other ws s ref :
  ref ∉ ws.*1 -> apply_writes ws s !! ref = s !! ref.
Proof.
  unfold apply_writes. revert s.
  induction ws as [|[r b] ws IH]; intros s Hni; simpl; [done|].
  rewrite fmap_cons, not_elem_of_cons in Hni. destruct Hni as [Hne Hni].
  rewrite IH by done. simpl. by rewrite lookup_insert_ne.
Qed.

(** The last write for a document decides its body. *)
Lemma apply_writes_lookup_last ws1 ws2 s ref body :
  ref ∉ ws2.*1 -> apply_writes (ws1 ++ (ref, body) :: ws2) s !! ref = Some body.
Proof.
  intros Hni. rewrite apply_writes_app. change ((ref, body) :: ws2) with ([(ref, body)] ++ ws2).
  rewrite apply_writes_app, apply_writes_lookup_other by done.
  simpl. apply lookup_insert_eq.
Qed.

(** Committing is independent of what the database held: the documents of
    the batch, over the old documents. *)
Lemma apply_writes_union ws s :
  apply_writes ws s = apply_writes ws ∅ ∪ s.
Proof.
  unfold apply_writes. revert s.
  induction ws as [|[r b] ws IH]; intros s; simpl.
  - by rewrite (left_id_L ∅ (∪)).
  - rewrite (IH (<[r:=b]> s)), (IH (<[r:=b]> ∅)).
    rewrite <- (assoc_L (∪)). f_equal.
    by rewrite <- insert_union_l, (left_id_L ∅ (∪)).
Qed.

Lemma apply_writes_idemp ws s :
  apply_writes ws (apply_writes ws s) = apply_writes ws s.
Proof.
  rewrite (apply_writes_union ws (apply_writes ws s)), (apply_writes_union ws s).
  by rewrite (assoc_L (∪)), (idemp_L (∪)).
Qed.

(** With one write per document, the batch creates as many documents as it
    has writes. *)
Lemma apply_writes_size ws :
  NoDup ws.*1 -> size (apply_writes ws ∅) = length ws.
Proof.
  induction ws as [|[r b] ws IH] using rev_ind; intros Hnd; [done|].
  rewrite apply_writes_app, length_app.
  rewrite fmap_app, NoDup_app in Hnd. destruct Hnd as (Hnd & Hdisj & _).
  change (apply_writes [(r, b)] (apply_writes ws ∅)) with (<[r:=b]> (apply_writes ws ∅)).
  rewrite map_size_insert_None.
  - rewrite IH by done. simpl. lia.
  - rewrite apply_writes_lookup_other; [done|].
    intros Hin. apply (Hdisj _ Hin). simpl. apply list_elem_of_here.
Qed.

(** ** Computations that only add to the trace *)

Lemma with_trace_nil w : with_trace w [] = w.
Proof. destruct w. unfold with_trace. simpl. by rewrite app_nil_r. Qed.

Lemma with_trace_app w evs1 evs2 :
  with_trace (with_trace w evs1) evs2 = with_trace w (evs1 ++ evs2).
Proof. unfold with_trace. simpl. by rewrite app_assoc. Qed.

Lemma trace_only_ret {A} (a : A) : trace_only (ret a).
Proof. intros w. unfold ret. simpl. by rewrite with_trace_nil. Qed.

Lemma trace_only_raise {A} e : trace_only (@raise A e).
Proof. intros w. unfold raise. simpl. by rewrite with_trace_nil. Qed.

Lemma trace_only_emit e : trace_only (emit e).
Proof. by intros w. Qed.

Lemma trace_only_bind {A B} (m : M A) (k : A -> M B) :
  trace_only m -> (forall a, trace_only (k a)) -> trace_only (bind m k).
Proof.
  intros Hm Hk w. unfold bind.
  rewrite (Hm w). generalize (Hm w0).
  destruct (m w0) as [[a|e] w1]; simpl; intros [= Hw1].
  - rewrite (Hk a (with_trace w (trace w1))), with_trace_app.
    by rewrite (Hk a w1).
  - done.
Qed.

Lemma trace_only_call e answer : trace_only (call e answer).
Proof.
  apply trace_only_bind; [apply trace_only_emit|].
  intros _. destruct answer; [apply trace_only_raise | apply trace_only_ret].
Qed.

Lemma trace_only_for_each {A S} (body : S -> A -> M S) acc xs :
  (forall acc x, trace_only (body acc x)) -> trace_only (for_each body acc xs).
Proof.
  intros Hbody. revert acc. induction xs as [|x xs IH]; intros acc; simpl.
  - apply trace_only_ret.
  - apply trace_only_bind; [apply Hbody | intros acc'; apply IH].
Qed.

Lemma trace_only_stage_record fs b record : trace_only (stage_record fs b record).
Proof.
  unfold stage_record, getitem, collection_document, batch_set.
  apply trace_only_bind.
  - destruct (record !! KEY_COLUMN); [apply trace_only_ret | apply trace_only_raise].
  - intros v. apply trace_only_bind.
    + apply trace_only_bind; [apply trace_only_call | intros; apply trace_only_ret].
    + intros ref. apply trace_only_bind; [apply trace_only_call | intros; apply trace_only_ret].
Qed.

Lemma for_each_stage_record fs records w :
  for_each (stage_record fs) [] records w =
  (staging_result fs records, with_trace w (staging_trace fs records)).
Proof. apply trace_only_for_each. intros; apply trace_only_stage_record. Qed.

(** ** The loop of the writer *)

(** With a client that does not raise, the loop stages one write per
    record, in order. *)
Lemma for_each_stage_reliable fs b records w :
  stages_all fs ->
  Forall (fun record => is_Some (record !! KEY_COLUMN)) records ->
  for_each (stage_record fs) b records w =
  (Ok (b ++ map write_of records),
   with_trace w (staging_events (map write_of records))).
Proof.
  intros (_ & _ & Hdoc & Hset) Hkey. revert b w.
  induction Hkey as [|record records [v Hv] _ IH]; intros b w; simpl.
  - by rewrite app_nil_r, with_trace_nil.
  - unfold bind at 1, stage_record at 1, getitem, bind at 1. rewrite Hv. simpl.
    unfold collection_document, batch_set, call, bind, emit, ret.
    rewrite Hdoc. simpl. rewrite Hset. simpl.
    rewrite IH.
    assert (Href : ref_of record = (FIRESTORE_COLLECTION, py_str v)).
    { unfold ref_of, doc_id. by rewrite (lookup_total_correct _ _ _ Hv). }
    unfold write_of at 3 5. unfold with_trace. simpl.
    by rewrite Href, <- !(assoc_L (++)).
Qed.

Lemma stages_mono records records' e :
  (forall r, r ∈ records -> r ∈ records') -> stages records e -> stages records' e.
Proof. intros Hsub. destruct e; simpl; try done. intros [? ?]. split; auto. Qed.

Lemma for_each_stage_events fs b records w :
  exists evs, (for_each (stage_record fs) b records w).2 = with_trace w evs /\
              Forall (stages records) evs.
Proof.
  revert b w. induction records as [|record records IH]; intros b w; simpl.
  - exists []. by rewrite with_trace_nil.
  - unfold bind at 1, stage_record at 1, getitem, bind at 1.
    destruct (record !! KEY_COLUMN) as [v|] eqn:Hv; simpl.
    2:{ exists []. by rewrite with_trace_nil. }
    unfold collection_document, batch_set, call, bind, emit, ret, raise.
    set (ref := (FIRESTORE_COLLECTION, py_str v)).
    assert (Hset : stages (record :: records) (Call_set ref record)).
    { split; [apply list_elem_of_here | by exists v]. }
    destruct (document_raises fs ref); simpl.
    { exists [Call_document ref]. split; [done|]. by apply Forall_cons_2. }
    destruct (set_raises fs ref record); simpl.
    { exists [Call_document ref; Call_set ref record]. split.
      - unfold with_trace. simpl. by rewrite <- (assoc_L (++)).
      - by repeat apply Forall_cons_2. }
    match goal with |- context [for_each _ ?b' records ?w'] =>
      destruct (IH b' w') as (evs & -> & Hevs) end.
    exists (Call_document ref :: Call_set ref record :: evs). split.
    + unfold with_trace. simpl. f_equal. rewrite <- !(assoc_L (++)). done.
    + do 2 (apply Forall_cons_2; [done|]).
      eapply Forall_impl; [exact Hevs|]. intros e. apply stages_mono.
      intros r Hr. by apply list_elem_of_further.
Qed.

Lemma staging_trace_stages fs records :
  Forall (stages records) (staging_trace fs records).
Proof.
  unfold staging_trace.
  destruct (for_each_stage_events fs [] records w0) as (evs & -> & Hevs). done.
Qed.

(** ** The writer, path by path *)

(** On a table that is not empty and has the key column, the writer takes
    one of five paths, as the client answers. *)
Lemma update_firebase_paths fs l w :
  let df := heap w !!! l in
  df_empty df = false -> KEY_COLUMN ∈ columns df ->
  update_firebase fs (Some l) w =
  (Ok tt,
   match client_raises fs with
   | Some e =>
       with_trace w [Print (Msg_connecting FIRESTORE_COLLECTION); Call_client;
                     Print (Msg_update_failed e)]
   | None =>
   match batch_raises fs with
   | Some e =>
       with_trace w [Print (Msg_connecting FIRESTORE_COLLECTION); Call_client;
                     Call_batch; Print (Msg_update_failed e)]
   | None =>
   match staging_result fs (to_dict_records (fillna df)) with
   | Raise e => with_trace (staged_world fs df w) [Print (Msg_update_failed e)]
   | Ok b =>
   match commit_raises fs b with
   | Some e => with_trace (staged_world fs df w) [Call_commit b; Print (Msg_update_failed e)]
   | None =>
       mkWorld (heap w ++ [fillna df]) (apply_writes b (store w))
         (trace (staged_world fs df w) ++ [Call_commit b; Print Msg_update_complete])
   end end end end).
Proof.
  intros df Hne Hkey. unfold update_firebase, load, bind at 1. fold df.
  rewrite Hne, bool_decide_true by done. simpl.
  unfold with_trace, staged_world.
  run_monad. destruct (client_raises fs); run_monad.
  { by rewrite <- !(assoc_L (++)). }
  destruct (batch_raises fs); run_monad.
  { by rewrite <- !(assoc_L (++)). }
  rewrite list_lookup_total_middle by done.
  rewrite for_each_stage_record.
  destruct (staging_result fs (to_dict_records (fillna df))) as [b|e]; run_monad.
  2:{ unfold with_trace. simpl. by rewrite <- !(assoc_L (++)). }
  destruct (commit_raises fs b); run_monad;
    unfold with_trace; simpl; by rewrite <- !(assoc_L (++)).
Qed.

(** ** What a run is observed to do *)

Lemma events_of_with_trace {A} (m : M A) w evs :
  exec m w = with_trace w evs -> events_of m w = evs.
Proof. unfold events_of. intros ->. simpl. apply drop_app_length. Qed.

Lemma exec_eq {A} (m : M A) w r w' : m w = (r, w') -> exec m w = w'.
Proof. unfold exec. by intros ->. Qed.

(** ** The writer on no data *)

(** C6.  When the table is absent ([None]) or empty ([df.empty]), the writer
    returns normally, leaves the frames and the database as they were, stages
    no write, commits nothing, and prints one line, which is not an error
    report. *)
Theorem update_firebase_no_data fs data_df w :
  (data_df = None \/ exists l, data_df = Some l /\ df_empty (heap w !!! l) = true) ->
  update_firebase fs data_df w = (Ok tt, with_trace w [Print Msg_no_data]) /\
  store (exec (update_firebase fs data_df) w) = store w /\
  no_writes (events_of (update_firebase fs data_df) w) /\
  no_error (events_of (update_firebase fs data_df) w).
Proof.
  intros Hcase.
  assert (Hrun : update_firebase fs data_df w = (Ok tt, with_trace w [Print Msg_no_data])).
  { destruct Hcase as [->|(l & -> & Hempty)]; [done|].
    unfold update_firebase, load, bind. by rewrite Hempty. }
  split; [done|].
  rewrite (events_of_with_trace _ _ _ (exec_eq _ _ _ _ Hrun)), (exec_eq _ _ _ _ Hrun).
  repeat split; by repeat apply Forall_cons_2.
Qed.

Lemma update_firebase_no_data_witness :
  update_firebase fs_ok (Some 0) (world_of (mkDataFrame ["pick_id"; "team"] [])) =
    (Ok tt, with_trace (world_of (mkDataFrame ["pick_id"; "team"] [])) [Print Msg_no_data]) /\
  update_firebase fs_ok None w0 = (Ok tt, with_trace w0 [Print Msg_no_data]).
Proof.
  split.
  - apply (update_firebase_no_data fs_ok (Some 0)
             (world_of (mkDataFrame ["pick_id"; "team"] []))).
    right. exists 0. split; reflexivity.
  - apply (update_firebase_no_data fs_ok None w0). left. reflexivity.
Defined.

(** ** The writer on a table without the key column *)

Lemma update_firebase_key_column_absent_run fs l w :
  df_empty (heap w !!! l) = false ->
  KEY_COLUMN ∉ columns (heap w !!! l) ->
  update_firebase fs (Some l) w =
    (Ok tt, with_trace w [Print (Msg_key_column_not_found KEY_COLUMN);
                          Print (Msg_available_columns (columns (heap w !!! l)))]).
Proof.
  intros Hne Hkey. unfold update_firebase, load, bind at 1.
  rewrite Hne, bool_decide_false by done. simpl. run_monad.
  unfold with_trace. by rewrite <- (assoc_L (++)).
Qed.

(** C3.  On a table that is not empty ([df.empty] is false) and whose columns
    do not include [KEY_COLUMN], the writer leaves the database as it was,
    stages no write and commits nothing; it prints two lines: the error that
    names the missing key column, and the columns that the table has. *)
Theorem update_firebase_key_column_absent fs l w :
  df_empty (heap w !!! l) = false ->
  KEY_COLUMN ∉ columns (heap w !!! l) ->
  update_firebase fs (Some l) w =
    (Ok tt, with_trace w [Print (Msg_key_column_not_found KEY_COLUMN);
                          Print (Msg_available_columns (columns (heap w !!! l)))]) /\
  store (exec (update_firebase fs (Some l)) w) = store w /\
  no_writes (events_of (update_firebase fs (Some l)) w) /\
  is_error (Msg_key_column_not_found KEY_COLUMN) = true.
Proof.
  intros Hne Hkey.
  pose proof (update_firebase_key_column_absent_run fs l w Hne Hkey) as Hrun.
  split; [done|].
  rewrite (events_of_with_trace _ _ _ (exec_eq _ _ _ _ Hrun)), (exec_eq _ _ _ _ Hrun).
  repeat split; by repeat apply Forall_cons_2.
Qed.

Lemma update_firebase_key_column_absent_witness :
  events_of (update_firebase fs_ok (Some 0))
    (world_of (mkDataFrame ["game_id"; "team"] [[Str "g1"; Str "A"]])) =
  [Print (Msg_key_column_not_found "pick_id");
   Print (Msg_available_columns ["game_id"; "team"])] /\
  store (exec (update_firebase fs_ok (Some 0))
    (world_of (mkDataFrame ["game_id"; "team"] [[Str "g1"; Str "A"]]))) = ∅.
Proof.
  destruct (update_firebase_key_column_absent fs_ok 0
              (world_of (mkDataFrame ["game_id"; "team"] [[Str "g1"; Str "A"]])))
    as (Hrun & Hstore & _ & _).
  - reflexivity.
  - simpl. unfold KEY_COLUMN. rewrite !elem_of_cons, elem_of_nil.
    intros [H|[H|[]]]; discriminate H.
  - split; [|exact Hstore].
    apply events_of_with_trace. exact (exec_eq _ _ _ _ Hrun).
Defined.

(** ** The writer with a client that does not raise *)

Lemma well_formed_fillna df : well_formed df -> well_formed (fillna df).
Proof.
  unfold well_formed, fillna. simpl. intros Hwf.
  apply Forall_fmap. eapply Forall_impl; [exact Hwf|].
  intros row. simpl. by rewrite length_map.
Qed.

Lemma document_of_write_of records :
  map write_of (map normalise records) = map document_of records.
Proof. by rewrite map_map. Qed.

Lemma batch_of_length df : length (batch_of df) = length (rows df).
Proof. unfold batch_of, to_dict_records. by rewrite !length_map. Qed.

Lemma staging_reliable fs df :
  stages_all fs -> well_formed df -> KEY_COLUMN ∈ columns df ->
  staging_result fs (to_dict_records (fillna df)) = Ok (batch_of df) /\
  staging_trace fs (to_dict_records (fillna df)) = staging_events (batch_of df).
Proof.
  intros Hfs Hwf Hkey. unfold staging_result, staging_trace.
  rewrite for_each_stage_reliable; [| done |].
  - simpl. by rewrite to_dict_records_fillna, document_of_write_of.
  - apply Forall_forall. intros record Hin.
    by apply (to_dict_records_has_column (fillna df)); [apply well_formed_fillna | |].
Qed.

(** The run when no call before the commit raises: every row is staged and
    the batch is handed to [commit]. *)
Lemma update_firebase_staged fs l w :
  stages_all fs ->
  well_formed (heap w !!! l) ->
  df_empty (heap w !!! l) = false ->
  KEY_COLUMN ∈ columns (heap w !!! l) ->
  update_firebase fs (Some l) w =
  (Ok tt,
   match commit_raises fs (batch_of (heap w !!! l)) with
   | Some e =>
       mkWorld (heap w ++ [fillna (heap w !!! l)]) (store w)
         (trace w ++ attempted_run (batch_of (heap w !!! l)) (Msg_update_failed e))
   | None =>
       mkWorld (heap w ++ [fillna (heap w !!! l)])
         (apply_writes (batch_of (heap w !!! l)) (store w))
         (trace w ++ complete_run (batch_of (heap w !!! l)))
   end).
Proof.
  intros Hfs Hwf Hne Hkey. rewrite update_firebase_paths by done.
  destruct (staging_reliable fs _ Hfs Hwf Hkey) as [Hres Htr].
  destruct Hfs as (-> & -> & _ & _).
  rewrite Hres. unfold staged_world, complete_run, attempted_run, with_trace. simpl.
  rewrite Htr, to_dict_records_fillna, length_map.
  replace (length (batch_of (heap w !!! l))) with (length (to_dict_records (heap w !!! l)))
    by (unfold batch_of; by rewrite length_map).
  destruct (commit_raises fs (batch_of (heap w !!! l)));
    simpl; by rewrite <- !(assoc_L (++)).
Qed.

(** The whole run when nothing raises. *)
Lemma update_firebase_reliable fs l w :
  reliable fs ->
  well_formed (heap w !!! l) ->
  df_empty (heap w !!! l) = false ->
  KEY_COLUMN ∈ columns (heap w !!! l) ->
  update_firebase fs (Some l) w =
  (Ok tt,
   mkWorld (heap w ++ [fillna (heap w !!! l)])
     (apply_writes (batch_of (heap w !!! l)) (store w))
     (trace w ++ complete_run (batch_of (heap w !!! l)))).
Proof.
  intros [Hfs Hcommit] Hwf Hne Hkey.
  by rewrite update_firebase_staged, Hcommit.
Qed.

(** ** The batch the writer commits *)

(** The database after a run: the committed batch applied, or no change. *)
Lemma update_firebase_store fs l w :
  store (exec (update_firebase fs (Some l)) w) =
  match committed fs (heap w !!! l) with
  | Some b => apply_writes b (store w)
  | None => store w
  end.
Proof.
  unfold committed.
  destruct (df_empty (heap w !!! l)) eqn:Hne.
  { unfold exec, update_firebase, load, bind. by rewrite Hne. }
  destruct (decide (KEY_COLUMN ∈ columns (heap w !!! l))) as [Hkey|Hkey].
  - rewrite bool_decide_true by done. unfold exec.
    rewrite update_firebase_paths by done. simpl.
    destruct (client_raises fs); [done|]. destruct (batch_raises fs); [done|].
    destruct (staging_result _ _) as [b|]; [|done].
    by destruct (commit_raises fs b).
  - rewrite bool_decide_false by done. unfold exec, update_firebase, load, bind at 1.
    rewrite Hne, bool_decide_false by done. by run_monad.
Qed.

(** The frames after a run: those there were, and at most one new frame. *)
Lemma update_firebase_heap fs data_df w :
  exists extra, heap (exec (update_firebase fs data_df) w) = heap w ++ extra.
Proof.
  destruct data_df as [l|]; [|exists []; by rewrite app_nil_r].
  destruct (df_empty (heap w !!! l)) eqn:Hne.
  { exists []. unfold exec, update_firebase, load, bind. by rewrite Hne, app_nil_r. }
  destruct (decide (KEY_COLUMN ∈ columns (heap w !!! l))) as [Hkey|Hkey].
  - unfold exec. rewrite update_firebase_paths by done. simpl.
    destruct (client_raises fs); [exists []; by rewrite app_nil_r|].
    destruct (batch_raises fs); [exists []; by rewrite app_nil_r|].
    destruct (staging_result _ _) as [b|]; [|by eexists].
    destruct (commit_raises fs b); by eexists.
  - exists []. unfold exec, update_firebase, load, bind at 1.
    rewrite Hne, bool_decide_false by done. run_monad. by rewrite app_nil_r.
Qed.

(** The [set] calls of a run are those of the loop. *)
Lemma update_firebase_set_calls fs l w ref body :
  Call_set ref body ∈ events_of (update_firebase fs (Some l)) w ->
  Call_set ref body ∈ staging_trace fs (to_dict_records (fillna (heap w !!! l))).
Proof.
  unfold events_of, exec.
  destruct (df_empty (heap w !!! l)) eqn:Hne.
  { unfold update_firebase, load, bind. rewrite Hne. simpl.
    rewrite drop_app_length, list_elem_of_singleton. done. }
  destruct (decide (KEY_COLUMN ∈ columns (heap w !!! l))) as [Hkey|Hkey].
  - rewrite update_firebase_paths by done. simpl. unfold staged_world.
    destruct (client_raises fs); simpl.
    { rewrite drop_app_length, !elem_of_cons, elem_of_nil. by_cases. }
    destruct (batch_raises fs); simpl.
    { rewrite drop_app_length, !elem_of_cons, elem_of_nil. by_cases. }
    destruct (staging_result _ _) as [b|]; [destruct (commit_raises fs b)|]; simpl;
      rewrite <- !(assoc_L (++)), drop_app_length; simpl;
      rewrite !elem_of_cons, elem_of_app, !elem_of_cons, elem_of_nil; by_cases.
  - unfold update_firebase, load, bind at 1.
    rewrite Hne, bool_decide_false by done. run_monad.
    rewrite <- !(assoc_L (++)), drop_app_length. simpl.
    rewrite !elem_of_cons, elem_of_nil. by_cases.
Qed.

(** ** The input table is not changed *)

(** C9.  Whatever the client answers, a frame that exists before the writer
    runs is the same frame after it: the table passed as [data_df] keeps its
    cells, the missing ones too; [fillna] builds a new frame, after the
    existing ones. *)
Theorem update_firebase_keeps_frames fs data_df w l df :
  heap w !! l = Some df ->
  heap (exec (update_firebase fs data_df) w) !! l = Some df /\
  heap w `prefix_of` heap (exec (update_firebase fs data_df) w).
Proof.
  intros Hl. destruct (update_firebase_heap fs data_df w) as [extra ->].
  split.
  - by apply lookup_app_l_Some.
  - apply prefix_app_r. reflexivity.
Qed.

Lemma update_firebase_keeps_frames_witness :
  heap (exec (update_firebase fs_ok (Some 0))
          (world_of (mkDataFrame ["pick_id"; "team"] [[Str "7"; NaN]]))) !! 0 =
  Some (mkDataFrame ["pick_id"; "team"] [[Str "7"; NaN]]).
Proof.
  apply (update_firebase_keeps_frames fs_ok (Some 0)
           (world_of (mkDataFrame ["pick_id"; "team"] [[Str "7"; NaN]])) 0).
  reflexivity.
Defined.

(** The reader, in contrast, changes the frame it has read in place:
    [dropna(how='all', inplace=True)]. *)
Lemma modify_changes_frame l f w df :
  heap w !! l = Some df -> heap (exec (modify l f) w) !! l = Some (f df).
Proof. intros Hl. unfold exec, modify. simpl. by rewrite list_lookup_alter_eq, Hl. Qed.

(** ** Staged documents and their IDs *)

(** C10.  Whatever the table and whatever the client answers, every call
    [batch.set(doc_ref, record)] of a run passes a body that has the key
    column as a field, whose value is not missing (it was normalised), under
    the document ID that is the string form of that value. *)
Theorem staged_body_has_key_and_id fs data_df w ref body :
  Call_set ref body ∈ events_of (update_firebase fs data_df) w ->
  exists v, body !! KEY_COLUMN = Some v /\ isna v = false /\
            ref = (FIRESTORE_COLLECTION, py_str v).
Proof.
  destruct data_df as [l|].
  2:{ unfold events_of, exec. simpl. rewrite drop_app_length, list_elem_of_singleton. done. }
  intros Hin. apply update_firebase_set_calls in Hin.
  pose proof (staging_trace_stages fs (to_dict_records (fillna (heap w !!! l)))) as Hst.
  rewrite Forall_forall in Hst. destruct (Hst _ Hin) as (Hrec & v & Hv & ->).
  exists v. split; [done|]. split; [|done].
  rewrite to_dict_records_fillna in Hrec.
  apply list_elem_of_In, in_map_iff in Hrec as (r & <- & _).
  by eapply normalise_not_na.
Qed.

Lemma staged_body_has_key_and_id_witness :
  exists v, (<["team" := Str ""]> (<["pick_id" := Int 7]> ∅) : gmap string value)
              !! KEY_COLUMN = Some v /\
            isna v = false /\
            ("live_picks", "7") = (FIRESTORE_COLLECTION, py_str v).
Proof.
  apply (staged_body_has_key_and_id fs_ok (Some 0)
           (world_of (mkDataFrame ["pick_id"; "team"] [[Int 7; NaN]]))).
  apply list_elem_of_lookup. exists 5. vm_compute. reflexivity.
Defined.

(** ** Running the writer twice *)

(** C5.  With the same table and the same client, a second run of the writer
    leaves the database as the first run left it: every write replaces the
    whole document, so nothing accumulates. *)
Theorem update_firebase_idempotent fs data_df w :
  (forall l, data_df = Some l -> l < length (heap w)) ->
  store (exec (update_firebase fs data_df) (exec (update_firebase fs data_df) w)) =
  store (exec (update_firebase fs data_df) w).
Proof.
  intros Hvalid. destruct data_df as [l|]; [|done].
  specialize (Hvalid l eq_refl).
  rewrite (update_firebase_store fs l (exec _ w)).
  destruct (update_firebase_heap fs (Some l) w) as [extra ->].
  rewrite lookup_total_app_l by done.
  rewrite update_firebase_store.
  destruct (committed fs (heap w !!! l)); [apply apply_writes_idemp | done].
Qed.

Lemma update_firebase_idempotent_witness :
  store (exec (update_firebase fs_ok (Some 0))
          (exec (update_firebase fs_ok (Some 0))
             (world_of (mkDataFrame ["pick_id"; "team"] [[Str "1"; NaN]; [Str "1"; Str "B"]])))) =
  store (exec (update_firebase fs_ok (Some 0))
          (world_of (mkDataFrame ["pick_id"; "team"] [[Str "1"; NaN]; [Str "1"; Str "B"]]))).
Proof.
  apply (update_firebase_idempotent fs_ok (Some 0)).
  intros l [= <-]. simpl. lia.
Defined.

(** ** One document per row *)

Lemma not_empty_frame df :
  rows df <> [] -> KEY_COLUMN ∈ columns df -> df_empty df = false.
Proof.
  unfold df_empty. destruct (rows df); [done|].
  destruct (columns df); [|done]. by rewrite elem_of_nil.
Qed.

Lemma batch_of_refs df :
  (batch_of df).*1 = map (fun r => (FIRESTORE_COLLECTION, doc_id (normalise r)))
                       (to_dict_records df).
Proof. unfold batch_of. by rewrite <- list_fmap_compose. Qed.

Lemma batch_of_NoDup df :
  NoDup (map (fun r => doc_id (normalise r)) (to_dict_records df)) ->
  NoDup (batch_of df).*1.
Proof.
  intros Hnd. rewrite batch_of_refs.
  rewrite <- (map_map (fun r => doc_id (normalise r)) (pair FIRESTORE_COLLECTION)).
  apply (NoDup_fmap_2 _). exact Hnd.
Qed.

Lemma events_of_run {A} (m : M A) w r h s evs :
  m w = (r, mkWorld h s (trace w ++ evs)) -> events_of m w = evs.
Proof. unfold events_of, exec. intros ->. simpl. apply drop_app_length. Qed.

(** C1, amended.  Take a client that does not raise and a well-formed table
    with at least one row and with the key column, in which the document IDs
    -- the string forms of the normalised key values -- are pairwise
    distinct.  The writer stages one [set] per row, in table order, and
    commits them.  After the run, for each row, the document under the row's
    ID is the row record with every missing value replaced by the empty
    string; no other document changes; and a database that held nothing
    holds exactly as many documents as the table has rows. *)
Theorem update_firebase_one_document_per_row fs l w :
  reliable fs ->
  well_formed (heap w !!! l) ->
  rows (heap w !!! l) <> [] ->
  KEY_COLUMN ∈ columns (heap w !!! l) ->
  NoDup (map (fun r => doc_id (normalise r)) (to_dict_records (heap w !!! l))) ->
  events_of (update_firebase fs (Some l)) w = complete_run (batch_of (heap w !!! l)) /\
  length (batch_of (heap w !!! l)) = length (rows (heap w !!! l)) /\
  (forall r, r ∈ to_dict_records (heap w !!! l) ->
     store (exec (update_firebase fs (Some l)) w)
       !! (FIRESTORE_COLLECTION, doc_id (normalise r)) = Some (normalise r)) /\
  (forall ref, ref ∉ (batch_of (heap w !!! l)).*1 ->
     store (exec (update_firebase fs (Some l)) w) !! ref = store w !! ref) /\
  (store w = ∅ ->
     size (store (exec (update_firebase fs (Some l)) w)) = length (rows (heap w !!! l))).
Proof.
  intros Hfs Hwf Hrows Hkey Hnd.
  pose proof (update_firebase_reliable fs l w Hfs Hwf (not_empty_frame _ Hrows Hkey) Hkey)
    as Hrun.
  rewrite (events_of_run _ _ _ _ _ _ Hrun), (exec_eq _ _ _ _ Hrun). simpl.
  split; [done|]. split; [apply batch_of_length|]. split; [|split].
  - intros r Hr. apply list_elem_of_split in Hr as (rs1 & rs2 & Hsplit).
    unfold batch_of. rewrite Hsplit, map_app. simpl.
    apply (apply_writes_lookup_last _ _ _ (ref_of (normalise r))).
    rewrite Hsplit, map_app in Hnd. simpl in Hnd.
    apply NoDup_app in Hnd as (_ & _ & Hnd). apply NoDup_cons in Hnd as [Hni _].
    intros Hin. apply Hni.
    apply list_elem_of_fmap in Hin as ([ref body] & Href & Hin). simpl in Href.
    apply list_elem_of_fmap in Hin as (r' & [= -> ->] & Hin).
    apply list_elem_of_fmap. exists r'. split; [|done].
    unfold ref_of in Href. by injection Href.
  - intros ref Hni. by apply apply_writes_lookup_other.
  - intros ->. rewrite apply_writes_size by (by apply batch_of_NoDup).
    apply batch_of_length.
Qed.

Lemma fs_ok_reliable : reliable fs_ok.
Proof. repeat split. Defined.

Lemma update_firebase_one_document_per_row_witness :
  size (store (exec (update_firebase fs_ok (Some 0))
                 (world_of (mkDataFrame ["pick_id"; "team"]
                              [[Str "1"; Str "A"]; [Int 2; NaN]])))) = 2.
Proof.
  destruct (update_firebase_one_document_per_row fs_ok 0
              (world_of (mkDataFrame ["pick_id"; "team"]
                           [[Str "1"; Str "A"]; [Int 2; NaN]])))
    as (_ & _ & _ & _ & Hsize).
  - exact fs_ok_reliable.
  - repeat apply Forall_cons_2; [reflexivity..|apply Forall_nil_2].
  - discriminate.
  - apply list_elem_of_here.
  - apply (bool_decide_unpack _). vm_compute. exact I.
  - exact (Hsize eq_refl).
Defined.

(** C1 as stated fails: the key values [1] (an integer) and ["1"] (a string)
    are distinct, and both rows are written under the one ID ["1"], so two
    rows leave one document. *)
Lemma distinct_key_values_one_document :
  well_formed (mkDataFrame ["pick_id"] [[Int 1]; [Str "1"]]) /\
  NoDup (map (fun r : gmap string value => r !!! KEY_COLUMN)
           (to_dict_records (mkDataFrame ["pick_id"] [[Int 1]; [Str "1"]]))) /\
  length (rows (mkDataFrame ["pick_id"] [[Int 1]; [Str "1"]])) = 2 /\
  size (store (exec (update_firebase fs_ok (Some 0))
                 (world_of (mkDataFrame ["pick_id"] [[Int 1]; [Str "1"]])))) = 1.
Proof.
  split; [|split; [|split]].
  - repeat apply Forall_cons_2; [reflexivity..|apply Forall_nil_2].
  - apply (bool_decide_unpack _). vm_compute. exact I.
  - reflexivity.
  - vm_compute. reflexivity.
Qed.

(** ** Rows that share a document ID *)

Lemma printed_app evs1 evs2 : printed (evs1 ++ evs2) = printed evs1 ++ printed evs2.
Proof. unfold printed. apply omap_app. Qed.

Lemma printed_staging_events ws : printed (staging_events ws) = [].
Proof. induction ws as [|wr ws IH]; [done|]. simpl. exact IH. Qed.

Lemma no_error_complete_run ws : no_error (complete_run ws).
Proof.
  unfold no_error, complete_run, attempted_run.
  rewrite !printed_app, printed_staging_events. simpl.
  by repeat apply Forall_cons_2.
Qed.

(** C8.  Take a client that does not raise and a well-formed table with the
    key column.  The writer stages one [set] per row, in table order, also
    when rows share a document ID; it reports no error; and after the commit
    the document under an ID is the normalised record of the last row, in
    table order, that has this ID. *)
Theorem update_firebase_last_row_wins fs l w records1 record records2 :
  reliable fs ->
  well_formed (heap w !!! l) ->
  KEY_COLUMN ∈ columns (heap w !!! l) ->
  to_dict_records (heap w !!! l) = records1 ++ record :: records2 ->
  (forall r, r ∈ records2 -> doc_id (normalise r) <> doc_id (normalise record)) ->
  events_of (update_firebase fs (Some l)) w = complete_run (batch_of (heap w !!! l)) /\
  batch_of (heap w !!! l) =
    map document_of records1 ++ document_of record :: map document_of records2 /\
  no_error (events_of (update_firebase fs (Some l)) w) /\
  store (exec (update_firebase fs (Some l)) w)
    !! (FIRESTORE_COLLECTION, doc_id (normalise record)) = Some (normalise record).
Proof.
  intros Hfs Hwf Hkey Hsplit Hlast.
  assert (Hrows : rows (heap w !!! l) <> []).
  { intros Hnil. unfold to_dict_records in Hsplit. rewrite Hnil in Hsplit.
    by destruct records1. }
  pose proof (update_firebase_reliable fs l w Hfs Hwf (not_empty_frame _ Hrows Hkey) Hkey)
    as Hrun.
  rewrite (events_of_run _ _ _ _ _ _ Hrun), (exec_eq _ _ _ _ Hrun). simpl.
  assert (Hbatch : batch_of (heap w !!! l) =
    map document_of records1 ++ document_of record :: map document_of records2).
  { unfold batch_of. by rewrite Hsplit, map_app. }
  split; [done|]. split; [done|]. split; [apply no_error_complete_run|].
  rewrite Hbatch. apply (apply_writes_lookup_last _ _ _ (ref_of (normalise record))).
  intros Hin.
  apply list_elem_of_fmap in Hin as ([ref body] & Href & Hin). simpl in Href.
  apply list_elem_of_fmap in Hin as (r' & [= -> ->] & Hin).
  apply (Hlast r' Hin). unfold ref_of in Href. by injection Href.
Qed.

Lemma update_firebase_last_row_wins_witness :
  store (exec (update_firebase fs_ok (Some 0))
           (world_of (mkDataFrame ["pick_id"; "team"]
                        [[Str "1"; Str "A"]; [Str "2"; Str "C"]; [Int 1; Str "B"]])))
    !! (FIRESTORE_COLLECTION, "1")
  = Some (normalise (py_dict [("pick_id", Int 1); ("team", Str "B")])).
Proof.
  destruct (update_firebase_last_row_wins fs_ok 0
              (world_of (mkDataFrame ["pick_id"; "team"]
                           [[Str "1"; Str "A"]; [Str "2"; Str "C"]; [Int 1; Str "B"]]))
              [py_dict [("pick_id", Str "1"); ("team", Str "A")];
               py_dict [("pick_id", Str "2"); ("team", Str "C")]]
              (py_dict [("pick_id", Int 1); ("team", Str "B")])
              [])
    as (_ & _ & _ & Hlookup).
  - exact fs_ok_reliable.
  - repeat apply Forall_cons_2; [reflexivity..|apply Forall_nil_2].
  - apply list_elem_of_here.
  - reflexivity.
  - intros r Hr. by apply elem_of_nil in Hr.
  - exact Hlookup.
Defined.

(** ** Rows without a key value *)

(** A committed batch leaves, under each reference it has a write for, the
    body of one of these writes. *)
Lemma apply_writes_lookup_in ws s ref :
  ref ∈ ws.*1 -> exists body, (ref, body) ∈ ws /\ apply_writes ws s !! ref = Some body.
Proof.
  induction ws as [|[r b] ws IH] using rev_ind; intros Hin.
  { by apply elem_of_nil in Hin. }
  rewrite apply_writes_app.
  change (apply_writes [(r, b)] (apply_writes ws s)) with (<[r:=b]> (apply_writes ws s)).
  destruct (decide (r = ref)) as [->|Hne].
  - exists b. rewrite lookup_insert_eq. split; [|done].
    apply elem_of_app. right. apply list_elem_of_here.
  - rewrite fmap_app, elem_of_app in Hin. destruct Hin as [Hin|Hin].
    + destruct (IH Hin) as (body & Hbody & Hlookup). exists body.
      rewrite lookup_insert_ne by done. split; [|done].
      apply elem_of_app. by left.
    + simpl in Hin. apply list_elem_of_singleton in Hin. congruence.
Qed.

Lemma staging_events_set ws ref body :
  (ref, body) ∈ ws -> Call_set ref body ∈ staging_events ws.
Proof.
  intros Hin. unfold staging_events. apply list_elem_of_In, in_flat_map.
  exists (ref, body). split; [by apply list_elem_of_In|]. simpl. tauto.
Qed.

Lemma doc_id_of_missing_key record :
  record !! KEY_COLUMN = Some NaN -> doc_id (normalise record) = "".
Proof.
  intros Hv. unfold doc_id.
  by rewrite (lookup_total_correct (normalise record) KEY_COLUMN (Str ""))
    by (by rewrite normalise_lookup, Hv).
Qed.

(** X21.  The writer checks the columns of the table, not its rows.  On a
    well-formed table that is not empty, when no call before the commit
    raises, a row whose key cell is missing is neither skipped nor refused by
    the writer: its record is normalised, staged under the document ID [""]
    like any other row, and is part of the batch passed to [batch.commit()].
    What becomes of that batch is the answer of the service. *)
Theorem missing_key_row_is_staged fs l w r :
  well_formed (heap w !!! l) ->
  df_empty (heap w !!! l) = false ->
  stages_all fs ->
  r ∈ to_dict_records (heap w !!! l) ->
  r !! KEY_COLUMN = Some NaN ->
  Call_set (FIRESTORE_COLLECTION, "") (normalise r)
    ∈ events_of (update_firebase fs (Some l)) w /\
  Call_commit (batch_of (heap w !!! l))
    ∈ events_of (update_firebase fs (Some l)) w /\
  ((FIRESTORE_COLLECTION, ""), normalise r) ∈ batch_of (heap w !!! l).
Proof.
  intros Hwf Hne Hfs Hr Hnan.
  assert (Hkey : KEY_COLUMN ∈ columns (heap w !!! l)).
  { apply (to_dict_records_has_column _ _ _ Hwf Hr). by rewrite Hnan. }
  assert (Hin : ((FIRESTORE_COLLECTION, ""), normalise r) ∈ batch_of (heap w !!! l)).
  { unfold batch_of. apply list_elem_of_fmap. exists r. split; [|done].
    unfold document_of, ref_of. by rewrite doc_id_of_missing_key. }
  pose proof (update_firebase_staged fs l w Hfs Hwf Hne Hkey) as Hrun.
  assert (Hevents : exists last,
    events_of (update_firebase fs (Some l)) w =
    attempted_run (batch_of (heap w !!! l)) last).
  { destruct (commit_raises fs (batch_of (heap w !!! l))) as [e|];
      eexists; exact (events_of_run _ _ _ _ _ _ Hrun). }
  destruct Hevents as [last ->]. split; [|split; [|done]].
  - unfold attempted_run. rewrite !elem_of_app. right. left.
    by apply staging_events_set.
  - unfold attempted_run. rewrite !elem_of_app. right. right. apply list_elem_of_here.
Qed.

Lemma missing_key_row_is_staged_witness :
  Call_commit (batch_of (mkDataFrame ["pick_id"; "team"] [[Str "1"; Str "A"]; [NaN; Str "B"]]))
    ∈ events_of (update_firebase
                   (mkFirestore None None (fun _ => None) (fun _ _ => None)
                      (fun _ => Some (ClientError "invalid document ID")))
                   (Some 0))
        (world_of (mkDataFrame ["pick_id"; "team"] [[Str "1"; Str "A"]; [NaN; Str "B"]])).
Proof.
  destruct (missing_key_row_is_staged
              (mkFirestore None None (fun _ => None) (fun _ _ => None)
                 (fun _ => Some (ClientError "invalid document ID")))
              0
              (world_of (mkDataFrame ["pick_id"; "team"] [[Str "1"; Str "A"]; [NaN; Str "B"]]))
              (py_dict [("pick_id", NaN); ("team", Str "B")]))
    as (_ & Hcommit & _).
  - repeat apply Forall_cons_2; [reflexivity..|apply Forall_nil_2].
  - reflexivity.
  - repeat split.
  - apply list_elem_of_further, list_elem_of_here.
  - vm_compute. reflexivity.
  - exact Hcommit.
Defined.

(** ** The sheet reader *)

Lemma forallb_isna_false row :
  forallb isna row = false <-> exists c, c ∈ row /\ isna c = false.
Proof.
  induction row as [|v row IH]; simpl.
  - split; [done|]. intros (c & Hc & _). by apply elem_of_nil in Hc.
  - rewrite andb_false_iff, IH. split.
    + intros [Hv|(c & Hc & Hna)]; [exists v|exists c]; split; try done.
      * apply list_elem_of_here.
      * by apply list_elem_of_further.
    + intros (c & Hc & Hna). apply elem_of_cons in Hc as [->|Hc]; [by left|].
      right. by exists c.
Qed.

(** The rows that [dropna(how='all')] keeps: those with a cell that is not
    missing. *)
Lemma dropna_all_rows df row :
  row ∈ rows (dropna_all df) <->
  row ∈ rows df /\ exists c, c ∈ row /\ isna c = false.
Proof.
  unfold dropna_all. simpl.
  by rewrite !list_elem_of_In, filter_In, negb_true_iff, forallb_isna_false.
Qed.

Lemma dropna_all_sublist df : sublist (rows (dropna_all df)) (rows df).
Proof.
  unfold dropna_all. simpl. induction (rows df) as [|row rs IH]; simpl; [constructor|].
  destruct (negb (forallb isna row)); by constructor.
Qed.

(** C7.  When the spreadsheet and the worksheet open and the worksheet reads
    as the frame [df], the reader returns a table with the columns of [df]
    and, in the same order, the rows of [df] that have at least one cell that
    is not missing: a row whose cells are all missing is not in it, every
    other row is.  That table is the one the main block passes to the
    writer. *)
Theorem fetch_sheet_data_drops_empty_rows gc w sh df :
  gc GOOGLE_SHEET_NAME = Ok sh ->
  sh WORKSHEET_NAME = Ok (Ok df) ->
  fetch_sheet_data gc w =
    (Ok (Some (length (heap w))),
     mkWorld (heap w ++ [dropna_all df]) (store w)
       (trace w ++ [Print (Msg_opening_sheet GOOGLE_SHEET_NAME);
                    Print (Msg_reading_worksheet WORKSHEET_NAME);
                    Print (Msg_fetched (df_len (dropna_all df)))])) /\
  columns (dropna_all df) = columns df /\
  (forall row, row ∈ rows (dropna_all df) <->
               row ∈ rows df /\ exists c, c ∈ row /\ isna c = false) /\
  sublist (rows (dropna_all df)) (rows df) /\
  (forall fs, sync fs gc w =
              update_firebase fs (Some (length (heap w))) (exec (fetch_sheet_data gc) w)).
Proof.
  intros Hsh Hws.
  assert (Hrun : fetch_sheet_data gc w =
    (Ok (Some (length (heap w))),
     mkWorld (heap w ++ [dropna_all df]) (store w)
       (trace w ++ [Print (Msg_opening_sheet GOOGLE_SHEET_NAME);
                    Print (Msg_reading_worksheet WORKSHEET_NAME);
                    Print (Msg_fetched (df_len (dropna_all df)))]))).
  { unfold fetch_sheet_data. run_monad. rewrite Hsh. simpl. rewrite Hws. simpl.
    rewrite <- (Nat.add_0_r (length (heap w))), alter_app_r, Nat.add_0_r. simpl.
    rewrite list_lookup_total_middle by done.
    by rewrite <- !(assoc_L (++)). }
  split; [done|]. split; [done|]. split; [apply dropna_all_rows|].
  split; [apply dropna_all_sublist|].
  intros fs. unfold sync, bind, exec. by rewrite Hrun.
Qed.

Lemma fetch_sheet_data_drops_empty_rows_witness :
  fetch_sheet_data (gc_of (mkDataFrame ["pick_id"; "team"]
                             [[Str "1"; NaN]; [NaN; NaN]; [NaN; Str "B"]])) w0 =
  (Ok (Some 0),
   mkWorld [mkDataFrame ["pick_id"; "team"] [[Str "1"; NaN]; [NaN; Str "B"]]] ∅
     [Print (Msg_opening_sheet GOOGLE_SHEET_NAME);
      Print (Msg_reading_worksheet WORKSHEET_NAME);
      Print (Msg_fetched 2)]).
Proof.
  destruct (fetch_sheet_data_drops_empty_rows
              (gc_of (mkDataFrame ["pick_id"; "team"]
                        [[Str "1"; NaN]; [NaN; NaN]; [NaN; Str "B"]]))
              w0
              (fun _ => Ok (Ok (mkDataFrame ["pick_id"; "team"]
                                  [[Str "1"; NaN]; [NaN; NaN]; [NaN; Str "B"]])))
              (mkDataFrame ["pick_id"; "team"]
                 [[Str "1"; NaN]; [NaN; NaN]; [NaN; Str "B"]]))
    as [Hrun _].
  - reflexivity.
  - reflexivity.
  - exact Hrun.
Defined.

(** ** The example of the description, run *)

(** C2, amended.  Reading the example sheet and writing it, starting with
    no document, leaves three documents: ["1"] with [pick_id "1"] and
    [team "A"], ["2"] with [pick_id "2"] and [team ""], and ["3"] with
    [pick_id "3"] and [team ""].  The all-empty row is dropped, and the third
    document has the [team] field, as the empty string. *)
Theorem example_sheet_documents c :
  c = NaN \/ c = Str "" ->
  store (exec (sync fs_ok (gc_of (example_sheet c))) w0) = example_documents /\
  length (rows (heap (exec (fetch_sheet_data (gc_of (example_sheet c))) w0) !!! 0)) = 3.
Proof. intros [->| ->]; split; vm_compute; reflexivity. Qed.

Lemma example_sheet_documents_witness :
  store (exec (sync fs_ok (gc_of (example_sheet NaN))) w0) = example_documents.
Proof.
  apply (example_sheet_documents NaN). left. reflexivity.
Defined.

(** C2 as stated fails: the third document is not [{pick_id: "3"}]; it has
    the [team] field too. *)
Lemma example_third_document_has_team :
  store (exec (sync fs_ok (gc_of (example_sheet (Str "")))) w0) <> example_documents_described /\
  store (exec (sync fs_ok (gc_of (example_sheet NaN))) w0) <> example_documents_described /\
  store (exec (sync fs_ok (gc_of (example_sheet (Str "")))) w0)
    !! (FIRESTORE_COLLECTION, "3") = Some (py_dict [("pick_id", Str "3"); ("team", Str "")]).
Proof.
  split; [|split].
  - intros H.
    apply (f_equal (fun s : gmap doc_ref (gmap string value) =>
                      s !! (FIRESTORE_COLLECTION, "3") ≫= (.!! "team"))) in H.
    vm_compute in H. discriminate H.
  - intros H.
    apply (f_equal (fun s : gmap doc_ref (gmap string value) =>
                      s !! (FIRESTORE_COLLECTION, "3") ≫= (.!! "team"))) in H.
    vm_compute in H. discriminate H.
  - vm_compute. reflexivity.
Qed.

(** * Further properties *)

(** ** The loop, whatever the client answers *)

(** When the loop returns, it has staged one write per record, in order,
    and every record had the key field. *)
Lemma for_each_stage_result fs b0 records w b w' :
  for_each (stage_record fs) b0 records w = (Ok b, w') ->
  b = b0 ++ map write_of records /\
  Forall (fun record => is_Some (record !! KEY_COLUMN)) records.
Proof.
  revert b0 w. induction records as [|record records IH]; intros b0 w; simpl.
  - unfold ret. intros [= <- _]. by rewrite app_nil_r.
  - unfold bind at 1, stage_record at 1, getitem, bind at 1.
    destruct (record !! KEY_COLUMN) as [v|] eqn:Hv; simpl; [|done].
    run_monad.
    destruct (document_raises fs _); simpl; [done|].
    destruct (set_raises fs _ _); simpl; [done|].
    intros Hrest. apply IH in Hrest as [-> Hall]. split.
    + rewrite <- (assoc_L (++)). simpl. do 2 f_equal.
      unfold write_of, ref_of, doc_id. by rewrite (lookup_total_correct _ _ _ Hv).
    + apply Forall_cons_2; [by rewrite Hv | done].
Qed.

Lemma staging_result_ok fs records b :
  staging_result fs records = Ok b -> b = map write_of records.
Proof.
  unfold staging_result.
  destruct (for_each (stage_record fs) [] records w0) as [r w'] eqn:Hrun.
  simpl. intros ->. by apply for_each_stage_result in Hrun as [-> _].
Qed.

(** The batch a run commits is the batch of the table. *)
Lemma committed_batch_of fs df b : committed fs df = Some b -> b = batch_of df.
Proof.
  unfold committed. destruct (df_empty df); [done|].
  destruct (bool_decide _); [|done].
  destruct (client_raises fs); [done|]. destruct (batch_raises fs); [done|].
  destruct (staging_result _ _) as [b'|] eqn:Hst; [|done].
  destruct (commit_raises fs b'); [done|]. intros [= <-].
  apply staging_result_ok in Hst as ->.
  by rewrite to_dict_records_fillna, document_of_write_of.
Qed.

Lemma staging_trace_no_print fs records m :
  Print m ∉ staging_trace fs records.
Proof.
  intros Hin. pose proof (staging_trace_stages fs records) as Hst.
  rewrite Forall_forall in Hst. exact (Hst _ Hin).
Qed.

Lemma staging_trace_no_commit fs records b :
  Call_commit b ∉ staging_trace fs records.
Proof.
  intros Hin. pose proof (staging_trace_stages fs records) as Hst.
  rewrite Forall_forall in Hst. exact (Hst _ Hin).
Qed.

(** Every run of the writer on a table it accepts ends in one of two ways. *)
Lemma update_firebase_outcome fs l w :
  df_empty (heap w !!! l) = false ->
  KEY_COLUMN ∈ columns (heap w !!! l) ->
  (committed fs (heap w !!! l) = Some (batch_of (heap w !!! l)) /\
   exists evs,
     events_of (update_firebase fs (Some l)) w =
       evs ++ [Call_commit (batch_of (heap w !!! l)); Print Msg_update_complete] /\
     (forall m, Print m ∈ evs -> is_error m = false /\ m <> Msg_update_complete) /\
     (forall b, Call_commit b ∉ evs)) \/
  (committed fs (heap w !!! l) = None /\
   exists evs e,
     events_of (update_firebase fs (Some l)) w = evs ++ [Print (Msg_update_failed e)] /\
     (forall m, Print m ∈ evs -> is_error m = false /\ m <> Msg_update_complete)).
Proof.
  intros Hne Hkey. unfold events_of, exec, committed.
  rewrite update_firebase_paths by done. rewrite Hne, bool_decide_true by done.
  unfold staged_world. simpl.
  destruct (client_raises fs) as [e|]; simpl.
  { right. split; [done|].
    exists [Print (Msg_connecting FIRESTORE_COLLECTION); Call_client], e.
    rewrite drop_app_length. split; [done|].
    intros m. rewrite !elem_of_cons, elem_of_nil.
    intros [[= ->]|[?|[]]]; done. }
  destruct (batch_raises fs) as [e|]; simpl.
  { right. split; [done|].
    exists [Print (Msg_connecting FIRESTORE_COLLECTION); Call_client; Call_batch], e.
    rewrite drop_app_length. split; [done|].
    intros m. rewrite !elem_of_cons, elem_of_nil.
    intros [[= ->]|[?|[?|[]]]]; done. }
  set (records := to_dict_records (fillna (heap w !!! l))).
  set (pre := [Print (Msg_connecting FIRESTORE_COLLECTION); Call_client; Call_batch;
               Print (Msg_preparing (length records))] ++ staging_trace fs records).
  assert (Hpre : forall m, Print m ∈ pre -> is_error m = false /\ m <> Msg_update_complete).
  { intros m. unfold pre. rewrite elem_of_app, !elem_of_cons, elem_of_nil.
    intros [[[= ->]|[?|[?|[[= ->]|[]]]]]|Hin]; try done.
    by apply staging_trace_no_print in Hin. }
  assert (Hnc : forall b, Call_commit b ∉ pre).
  { intros b. unfold pre. rewrite elem_of_app, !elem_of_cons, elem_of_nil.
    intros [[?|[?|[?|[?|[]]]]]|Hin]; try done.
    by apply staging_trace_no_commit in Hin. }
  destruct (staging_result fs records) as [b|e] eqn:Hst; simpl.
  2:{ right. split; [done|]. exists pre, e.
      rewrite <- !(assoc_L (++)), drop_app_length. split; [|done].
      unfold pre. by rewrite <- !(assoc_L (++)). }
  assert (Hb : b = batch_of (heap w !!! l)).
  { apply staging_result_ok in Hst as ->. unfold records.
    by rewrite to_dict_records_fillna, document_of_write_of. }
  destruct (commit_raises fs b) as [e|] eqn:Hcommit; simpl.
  - right. split; [done|]. exists (pre ++ [Call_commit b]), e.
    rewrite <- !(assoc_L (++)), drop_app_length. split.
    + unfold pre. by rewrite <- !(assoc_L (++)).
    + intros m. rewrite elem_of_app, list_elem_of_singleton.
      intros [Hin|?]; [by apply Hpre | done].
  - left. subst b. split; [done|]. exists pre.
    rewrite <- !(assoc_L (++)), drop_app_length. split; [|done].
    unfold pre. by rewrite <- !(assoc_L (++)).
Qed.

(** The three ways a call of the writer can go. *)
Lemma update_firebase_cases fs data_df w :
  (update_firebase fs data_df w = (Ok tt, with_trace w [Print Msg_no_data]) /\
   (data_df = None \/ exists l, data_df = Some l /\ df_empty (heap w !!! l) = true)) \/
  (exists l, data_df = Some l /\ df_empty (heap w !!! l) = false /\
             (KEY_COLUMN ∉ columns (heap w !!! l)) /\
             update_firebase fs data_df w =
               (Ok tt, with_trace w [Print (Msg_key_column_not_found KEY_COLUMN);
                                     Print (Msg_available_columns (columns (heap w !!! l)))])) \/
  (exists l, data_df = Some l /\ df_empty (heap w !!! l) = false /\
             KEY_COLUMN ∈ columns (heap w !!! l)).
Proof.
  destruct data_df as [l|]; [|left; split; [done|by left]].
  destruct (df_empty (heap w !!! l)) eqn:Hne.
  { left. split; [|right; by exists l].
    unfold update_firebase, load, bind. by rewrite Hne. }
  destruct (decide (KEY_COLUMN ∈ columns (heap w !!! l))) as [Hkey|Hkey].
  - right. right. by exists l.
  - right. left. exists l. repeat split; try done.
    by apply update_firebase_key_column_absent_run.
Qed.

Lemma committed_skipped fs df :
  df_empty df = true \/ KEY_COLUMN ∉ columns df -> committed fs df = None.
Proof.
  unfold committed. intros [->|Hkey]; [done|].
  destruct (df_empty df); [done|]. by rewrite bool_decide_false.
Qed.

(** ** Exceptions do not leave the writer *)

(** X1.  Whatever the table and whatever the client raises, and also when a
    record has no key field, [update_firebase] returns normally: every
    exception is caught inside the function. *)
Theorem update_firebase_never_raises fs data_df w :
  (update_firebase fs data_df w).1 = Ok tt.
Proof.
  destruct (update_firebase_cases fs data_df w)
    as [[-> _]|[(l & -> & _ & _ & ->)|(l & -> & Hne & Hkey)]]; [done..|].
  by rewrite update_firebase_paths.
Qed.

(** ** The completion line *)

Lemma complete_printed fs data_df w :
  Print Msg_update_complete ∈ events_of (update_firebase fs data_df) w <->
  exists l, data_df = Some l /\
            committed fs (heap w !!! l) = Some (batch_of (heap w !!! l)).
Proof.
  destruct (update_firebase_cases fs data_df w)
    as [[Hrun Hcase]|[(l & -> & Hne & Hkey & Hrun)|(l & -> & Hne & Hkey)]].
  - rewrite (events_of_with_trace _ _ _ (exec_eq _ _ _ _ Hrun)).
    rewrite list_elem_of_singleton. split; [done|].
    intros (l & -> & Hc). destruct Hcase as [?|(l' & [= <-] & Hempty)]; [done|].
    by rewrite committed_skipped in Hc by (by left).
  - rewrite (events_of_with_trace _ _ _ (exec_eq _ _ _ _ Hrun)).
    rewrite !elem_of_cons, elem_of_nil. split; [by intros [?|[?|[]]]|].
    intros (l' & [= <-] & Hc). by rewrite committed_skipped in Hc by (by right).
  - destruct (update_firebase_outcome fs l w Hne Hkey)
      as [(Hc & evs & -> & _)|(Hc & evs & e & -> & Hevs)].
    + split; [intros _; by exists l|intros _].
      rewrite elem_of_app, !elem_of_cons. right. right. by left.
    + split.
      * rewrite elem_of_app, list_elem_of_singleton. intros [Hin|?]; [|done].
        by destruct (Hevs _ Hin) as [_ ?].
      * intros (l' & [= <-] & Hc'). by rewrite Hc in Hc'.
Qed.

(** X2.  The line "Firebase update complete." tells the truth: when a run
    prints it, [commit] was called with the batch of the table -- one [set]
    per row -- and the database is the old one with that batch applied.  A
    run that never calls [commit] does not print it and leaves the database
    exactly as it was. *)
Theorem completion_line_is_reliable fs data_df w :
  (Print Msg_update_complete ∈ events_of (update_firebase fs data_df) w ->
   exists l, data_df = Some l /\
     Call_commit (batch_of (heap w !!! l)) ∈ events_of (update_firebase fs data_df) w /\
     store (exec (update_firebase fs data_df) w) =
       apply_writes (batch_of (heap w !!! l)) (store w)) /\
  ((forall b, Call_commit b ∉ events_of (update_firebase fs data_df) w) ->
   (Print Msg_update_complete ∉ events_of (update_firebase fs data_df) w) /\
   store (exec (update_firebase fs data_df) w) = store w).
Proof.
  assert (Hcomplete :
    Print Msg_update_complete ∈ events_of (update_firebase fs data_df) w ->
    exists l, data_df = Some l /\
      Call_commit (batch_of (heap w !!! l)) ∈ events_of (update_firebase fs data_df) w /\
      store (exec (update_firebase fs data_df) w) =
        apply_writes (batch_of (heap w !!! l)) (store w)).
  { intros Hin. apply complete_printed in Hin as (l & -> & Hc). exists l.
    split; [done|]. rewrite update_firebase_store, Hc. split; [|done].
    destruct (update_firebase_cases fs (Some l) w)
      as [[_ [?|(l' & [= <-] & He)]]|[(l' & [= <-] & _ & Hk & _)|(l' & [= <-] & Hne & Hkey)]];
      try done.
    + by rewrite committed_skipped in Hc by (by left).
    + by rewrite committed_skipped in Hc by (by right).
    + destruct (update_firebase_outcome fs l w Hne Hkey)
        as [(_ & evs & -> & _)|(Hc' & _)]; [|by rewrite Hc in Hc'].
      rewrite elem_of_app, !elem_of_cons. right. by left. }
  split; [done|]. intros Hnocommit.
  assert (Hni : Print Msg_update_complete ∉ events_of (update_firebase fs data_df) w).
  { intros Hin. destruct (Hcomplete Hin) as (l & _ & Hcommit & _).
    by apply (Hnocommit _ Hcommit). }
  split; [done|]. destruct data_df as [l|]; [|done].
  rewrite update_firebase_store.
  destruct (committed fs (heap w !!! l)) as [b|] eqn:Hc; [|done].
  exfalso. apply Hni, complete_printed. exists l. split; [done|].
  by rewrite <- (committed_batch_of _ _ _ Hc).
Qed.

Lemma completion_line_is_reliable_witness :
  store (exec (update_firebase fs_ok (Some 0))
           (world_of (mkDataFrame ["pick_id"] [[Int 4]]))) =
  apply_writes (batch_of (mkDataFrame ["pick_id"] [[Int 4]])) ∅ /\
  store (exec (update_firebase fs_ok (Some 0))
           (world_of (mkDataFrame ["game_id"] [[Int 4]]))) = ∅.
Proof.
  split.
  - destruct (proj1 (completion_line_is_reliable fs_ok (Some 0)
                       (world_of (mkDataFrame ["pick_id"] [[Int 4]]))))
      as (l & Hl & _ & Hstore).
    + apply list_elem_of_lookup. exists 7. vm_compute. reflexivity.
    + injection Hl as <-. exact Hstore.
  - apply (proj2 (completion_line_is_reliable fs_ok (Some 0)
                    (world_of (mkDataFrame ["game_id"] [[Int 4]])))).
    intros b Hin. apply list_elem_of_lookup in Hin as [i Hi].
    destruct i as [|[|i]]; vm_compute in Hi; discriminate Hi.
Defined.

(** ** Failures are reported *)

(** X3.  On a table that is not empty, a run that does not print the
    completion line prints an error report -- the key-column error or
    "Failed to update Firebase" with the exception -- and a run that prints
    the completion line prints no error report. *)
Theorem failure_is_reported fs l w :
  df_empty (heap w !!! l) = false ->
  (Print Msg_update_complete ∈ events_of (update_firebase fs (Some l)) w /\
   no_error (events_of (update_firebase fs (Some l)) w)) \/
  ((Print Msg_update_complete ∉ events_of (update_firebase fs (Some l)) w) /\
   exists m, is_error m = true /\ Print m ∈ events_of (update_firebase fs (Some l)) w).
Proof.
  intros Hne.
  destruct (update_firebase_cases fs (Some l) w)
    as [[_ [?|(l' & [= <-] & He)]]|[(l' & [= <-] & _ & Hk & Hrun)|(l' & [= <-] & _ & Hkey)]];
    try done; try congruence.
  - right. rewrite (events_of_with_trace _ _ _ (exec_eq _ _ _ _ Hrun)). split.
    + rewrite !elem_of_cons, elem_of_nil. by intros [?|[?|[]]].
    + exists (Msg_key_column_not_found KEY_COLUMN). split; [done|apply list_elem_of_here].
  - destruct (update_firebase_outcome fs l w Hne Hkey)
      as [(_ & evs & -> & Hevs & _)|(_ & evs & e & -> & Hevs)].
    + left. split.
      * rewrite elem_of_app, !elem_of_cons. right. right. by left.
      * unfold no_error. rewrite printed_app. apply Forall_app. split.
        -- apply Forall_forall. intros m Hm. apply (Hevs m).
           unfold printed in Hm. apply list_elem_of_omap in Hm as (ev & Hev & Hm).
           destruct ev; try done. by injection Hm as ->.
        -- simpl. by apply Forall_cons_2.
    + right. split.
      * rewrite elem_of_app, list_elem_of_singleton. intros [Hin|?]; [|done].
        by destruct (Hevs _ Hin) as [_ ?].
      * exists (Msg_update_failed e). split; [done|].
        rewrite elem_of_app, list_elem_of_singleton. by right.
Qed.

Lemma failure_is_reported_witness :
  Print Msg_update_complete
    ∉ events_of (update_firebase (mkFirestore None None (fun _ => None) (fun _ _ => None)
                                    (fun _ => Some (ClientError "unavailable")))
                   (Some 0))
        (world_of (mkDataFrame ["pick_id"] [[Int 4]])).
Proof.
  destruct (failure_is_reported
              (mkFirestore None None (fun _ => None) (fun _ _ => None)
                 (fun _ => Some (ClientError "unavailable")))
              0 (world_of (mkDataFrame ["pick_id"] [[Int 4]])))
    as [[Hin _]|[Hni _]].
  - reflexivity.
  - apply list_elem_of_lookup in Hin as [i Hi]. exfalso.
    do 9 (destruct i as [|i]; [vm_compute in Hi; discriminate Hi|]).
    vm_compute in Hi. discriminate Hi.
  - exact Hni.
Defined.

(** ** What a run can change in the database *)

Lemma batch_of_ref_in df ref :
  ref ∈ (batch_of df).*1 ->
  exists r, r ∈ to_dict_records df /\ ref = (FIRESTORE_COLLECTION, doc_id (normalise r)).
Proof.
  rewrite batch_of_refs. intros Hin.
  apply list_elem_of_fmap in Hin as (r & -> & Hr). by exists r.
Qed.

(** X4.  Whatever the client answers, a run changes no document other than
    those of the collection [FIRESTORE_COLLECTION] whose ID is the ID
    computed for a row of the table: a document that differs after the run
    is named by some row. *)
Theorem only_row_documents_change fs data_df w ref :
  store (exec (update_firebase fs data_df) w) !! ref <> store w !! ref ->
  exists l r, data_df = Some l /\ r ∈ to_dict_records (heap w !!! l) /\
              ref = (FIRESTORE_COLLECTION, doc_id (normalise r)).
Proof.
  destruct data_df as [l|]; [|done].
  rewrite update_firebase_store.
  destruct (committed fs (heap w !!! l)) as [b|] eqn:Hc; [|done].
  apply committed_batch_of in Hc as ->. intros Hdiff.
  destruct (decide (ref ∈ (batch_of (heap w !!! l)).*1)) as [Hin|Hni].
  - apply batch_of_ref_in in Hin as (r & Hr & ->). by exists l, r.
  - by rewrite apply_writes_lookup_other in Hdiff.
Qed.

Lemma only_row_documents_change_witness :
  exists l r, Some 0 = Some l /\
    r ∈ to_dict_records (heap (world_of (mkDataFrame ["pick_id"] [[Int 4]])) !!! l) /\
    (FIRESTORE_COLLECTION, "4") = (FIRESTORE_COLLECTION, doc_id (normalise r)).
Proof.
  apply (only_row_documents_change fs_ok (Some 0)
           (world_of (mkDataFrame ["pick_id"] [[Int 4]]))).
  vm_compute. discriminate.
Defined.

Lemma apply_writes_is_Some ws s ref :
  is_Some (s !! ref) -> is_Some (apply_writes ws s !! ref).
Proof.
  rewrite (apply_writes_union ws s), lookup_union.
  intros [body ->]. destruct (apply_writes ws ∅ !! ref); by eexists.
Qed.

(** X5.  The writer never deletes: whatever the client answers, every
    document that exists before a run exists after it. *)
Theorem update_firebase_keeps_documents fs data_df w ref :
  is_Some (store w !! ref) ->
  is_Some (store (exec (update_firebase fs data_df) w) !! ref).
Proof.
  intros Hsome. destruct data_df as [l|]; [|done].
  rewrite update_firebase_store.
  destruct (committed fs (heap w !!! l)); [by apply apply_writes_is_Some | done].
Qed.

Lemma update_firebase_keeps_documents_witness :
  is_Some (store (exec (update_firebase fs_ok (Some 0))
                    (mkWorld [mkDataFrame ["pick_id"] [[Int 4]]]
                       {[ ("live_picks", "9") := ∅ ]} []))
             !! ("live_picks", "9")).
Proof.
  apply (update_firebase_keeps_documents fs_ok (Some 0)
           (mkWorld [mkDataFrame ["pick_id"] [[Int 4]]]
              {[ ("live_picks", "9") := ∅ ]} [])).
  vm_compute. eexists. reflexivity.
Defined.

(** ** Missing values never reach the database *)

Lemma no_missing_normalise record : no_missing (normalise record).
Proof. intros k v Hv. by eapply normalise_not_na. Qed.

Lemma apply_writes_clean ws s :
  Forall (fun wr => no_missing wr.2) ws -> clean s -> clean (apply_writes ws s).
Proof.
  unfold apply_writes. intros Hws. revert s.
  induction Hws as [|[ref body] ws Hbody _ IH]; intros s Hs; simpl; [done|].
  apply IH. by apply map_Forall_insert_2.
Qed.

(** X6.  Whatever the client answers, a database in which no document has a
    missing value is still such a database after a run: every body the
    writer commits was normalised. *)
Theorem update_firebase_keeps_clean fs data_df w :
  clean (store w) -> clean (store (exec (update_firebase fs data_df) w)).
Proof.
  intros Hclean. destruct data_df as [l|]; [|done].
  rewrite update_firebase_store.
  destruct (committed fs (heap w !!! l)) as [b|] eqn:Hc; [|done].
  apply committed_batch_of in Hc as ->. apply apply_writes_clean; [|done].
  unfold batch_of. apply Forall_fmap, Forall_forall. intros r _.
  apply no_missing_normalise.
Qed.

Lemma update_firebase_keeps_clean_witness :
  clean (store (exec (update_firebase fs_ok (Some 0))
                  (world_of (mkDataFrame ["pick_id"; "team"] [[Int 4; NaN]; [NaN; NaN]])))).
Proof.
  apply (update_firebase_keeps_clean fs_ok (Some 0)
           (world_of (mkDataFrame ["pick_id"; "team"] [[Int 4; NaN]; [NaN; NaN]]))).
  apply map_Forall_empty.
Defined.

(** ** The fields of a document *)

Lemma dict_update_dom pairs d :
  dom (dict_update d pairs) = list_to_set pairs.*1 ∪ dom d.
Proof.
  unfold dict_update. revert d.
  induction pairs as [|[k v] pairs IH]; intros d; simpl.
  - by rewrite (left_id_L ∅ (∪)).
  - rewrite IH, dom_insert_L, (assoc_L (∪)).
    by rewrite (comm_L (∪) (list_to_set pairs.*1) {[k]}).
Qed.

Lemma to_dict_records_dom df record :
  well_formed df -> record ∈ to_dict_records df ->
  dom record = list_to_set (columns df).
Proof.
  unfold well_formed, to_dict_records. intros Hwf Hin.
  apply list_elem_of_In, in_map_iff in Hin as (row & <- & Hrow).
  apply list_elem_of_In in Hrow.
  rewrite Forall_forall in Hwf. specialize (Hwf _ Hrow).
  unfold py_dict. rewrite dict_update_dom, fst_zip_same_length by done.
  rewrite dom_empty_L. by rewrite (right_id_L ∅ (∪)).
Qed.

(** X7.  On a well-formed table, whatever the client answers, every body
    passed to [batch.set] has exactly the columns of the table as its
    fields: no column is left out of a document, and nothing is added. *)
Theorem staged_body_fields_are_columns fs l w ref body :
  well_formed (heap w !!! l) ->
  Call_set ref body ∈ events_of (update_firebase fs (Some l)) w ->
  dom body = list_to_set (columns (heap w !!! l)).
Proof.
  intros Hwf Hin. apply update_firebase_set_calls in Hin.
  pose proof (staging_trace_stages fs (to_dict_records (fillna (heap w !!! l)))) as Hst.
  rewrite Forall_forall in Hst. destruct (Hst _ Hin) as (Hrec & _).
  by rewrite (to_dict_records_dom (fillna (heap w !!! l)) body)
    by (try done; by apply well_formed_fillna).
Qed.

Lemma staged_body_fields_are_columns_witness :
  dom (<["team" := Str ""]> (<["pick_id" := Int 7]> ∅) : gmap string value) =
  list_to_set ["pick_id"; "team"].
Proof.
  apply (staged_body_fields_are_columns fs_ok 0
           (world_of (mkDataFrame ["pick_id"; "team"] [[Int 7; NaN]]))
           ("live_picks", "7")).
  - repeat apply Forall_cons_2; [reflexivity..|apply Forall_nil_2].
  - apply list_elem_of_lookup. exists 5. vm_compute. reflexivity.
Defined.

(** ** Cells and fields *)

Lemma dict_update_lookup_other pairs d k :
  k ∉ pairs.*1 -> dict_update d pairs !! k = d !! k.
Proof.
  unfold dict_update. revert d.
  induction pairs as [|[k' v] pairs IH]; intros d Hni; simpl; [done|].
  rewrite fmap_cons, not_elem_of_cons in Hni. destruct Hni as [Hne Hni].
  rewrite IH by done. simpl. by rewrite lookup_insert_ne.
Qed.

Lemma fst_zip_elem (cols : list string) (row : list value) k :
  k ∈ (zip cols row).*1 -> k ∈ cols.
Proof.
  intros Hin. apply list_elem_of_fmap in Hin as ([k' v] & -> & Hin).
  by apply elem_of_zip_l in Hin.
Qed.

(** With distinct column labels, the field of a record under a label is the
    cell of the row in that column. *)
Lemma py_dict_lookup_cell cols row j c v :
  NoDup cols -> cols !! j = Some c -> row !! j = Some v ->
  py_dict (zip cols row) !! c = Some v.
Proof.
  unfold py_dict. generalize (∅ : gmap string value) as d.
  intros d Hnd. revert d row j.
  induction Hnd as [|c0 cols Hni Hnd IH]; intros d [|v0 row] [|j] Hc Hv; try done.
  - simpl in *. injection Hc as ->. injection Hv as ->.
    change (dict_update (<[c:=v]> d) (zip cols row) !! c = Some v).
    rewrite dict_update_lookup_other; [apply lookup_insert_eq|].
    intros Hin. by apply fst_zip_elem in Hin.
  - simpl in *. change (dict_update (<[c0:=v0]> d) (zip cols row) !! c = Some v).
    by apply (IH _ row j).
Qed.

(** Under distinct IDs, the document of a row is the normalised record of
    that row. *)
Lemma apply_writes_batch_of_lookup df s r :
  NoDup (map (fun r => doc_id (normalise r)) (to_dict_records df)) ->
  r ∈ to_dict_records df ->
  apply_writes (batch_of df) s !! (FIRESTORE_COLLECTION, doc_id (normalise r)) =
  Some (normalise r).
Proof.
  intros Hnd Hr. apply list_elem_of_split in Hr as (rs1 & rs2 & Hsplit).
  unfold batch_of. rewrite Hsplit, map_app. simpl.
  apply (apply_writes_lookup_last _ _ _ (ref_of (normalise r))).
  rewrite Hsplit, map_app in Hnd. simpl in Hnd.
  apply NoDup_app in Hnd as (_ & _ & Hnd). apply NoDup_cons in Hnd as [Hni _].
  intros Hin. apply Hni.
  apply list_elem_of_fmap in Hin as ([ref body] & Href & Hin). simpl in Href.
  apply list_elem_of_fmap in Hin as (r' & [= -> ->] & Hin).
  apply list_elem_of_fmap. exists r'. split; [|done].
  unfold ref_of in Href. by injection Href.
Qed.

(** X8.  Cell by cell.  Take a client that does not raise and a well-formed
    table with the key column, with distinct column labels and distinct
    document IDs.  After the run, the document of a row has, under each
    column label, the cell of the row in that column, a missing cell as the
    empty string. *)
Theorem document_field_is_cell fs l w i row j c v :
  reliable fs ->
  well_formed (heap w !!! l) ->
  KEY_COLUMN ∈ columns (heap w !!! l) ->
  NoDup (columns (heap w !!! l)) ->
  NoDup (map (fun r => doc_id (normalise r)) (to_dict_records (heap w !!! l))) ->
  rows (heap w !!! l) !! i = Some row ->
  columns (heap w !!! l) !! j = Some c ->
  row !! j = Some v ->
  exists body,
    store (exec (update_firebase fs (Some l)) w)
      !! (FIRESTORE_COLLECTION,
          doc_id (normalise (py_dict (zip (columns (heap w !!! l)) row)))) = Some body /\
    body !! c = Some (fill v).
Proof.
  intros Hfs Hwf Hkey Hcols Hids Hrow Hc Hv.
  assert (Hrows : rows (heap w !!! l) <> []).
  { intros Hnil. by rewrite Hnil in Hrow. }
  pose proof (update_firebase_reliable fs l w Hfs Hwf (not_empty_frame _ Hrows Hkey) Hkey)
    as Hrun.
  rewrite (exec_eq _ _ _ _ Hrun). simpl.
  exists (normalise (py_dict (zip (columns (heap w !!! l)) row))). split.
  - apply apply_writes_batch_of_lookup; [done|].
    unfold to_dict_records. apply list_elem_of_fmap.
    exists row. split; [done|]. by eapply list_elem_of_lookup_2.
  - by rewrite normalise_lookup, (py_dict_lookup_cell _ _ j c v).
Qed.

Lemma document_field_is_cell_witness :
  exists body,
    store (exec (update_firebase fs_ok (Some 0))
             (world_of (mkDataFrame ["pick_id"; "team"] [[Int 4; Str "A"]; [Int 5; NaN]])))
      !! (FIRESTORE_COLLECTION, "5") = Some body /\
    body !! "team" = Some (Str "").
Proof.
  apply (document_field_is_cell fs_ok 0
           (world_of (mkDataFrame ["pick_id"; "team"] [[Int 4; Str "A"]; [Int 5; NaN]]))
           1 [Int 5; NaN] 1 "team" NaN).
  - exact fs_ok_reliable.
  - repeat apply Forall_cons_2; [reflexivity..|apply Forall_nil_2].
  - apply list_elem_of_here.
  - apply (bool_decide_unpack _). vm_compute. exact I.
  - apply (bool_decide_unpack _). vm_compute. exact I.
  - reflexivity.
  - reflexivity.
  - reflexivity.
Defined.

(** ** Key columns of one type *)

Lemma doc_id_normalise record v :
  record !! KEY_COLUMN = Some v -> doc_id (normalise record) = py_str (fill v).
Proof.
  intros Hv. unfold doc_id.
  by rewrite (lookup_total_correct (normalise record) KEY_COLUMN (fill v))
    by (by rewrite normalise_lookup, Hv).
Qed.

Lemma doc_ids_of_key_cells df :
  well_formed df -> KEY_COLUMN ∈ columns df ->
  map (fun r => doc_id (normalise r)) (to_dict_records df) =
  map (fun v => py_str (fill v)) (key_cells df).
Proof.
  intros Hwf Hkey. unfold key_cells. rewrite map_map.
  apply map_ext_in. intros r Hr. apply list_elem_of_In in Hr.
  destruct (proj2 (to_dict_records_has_column df r KEY_COLUMN Hwf Hr) Hkey) as [v Hv].
  by rewrite (doc_id_normalise r v), (lookup_total_correct _ _ _ Hv).
Qed.

(** X9.  On a well-formed table with the key column, when the key cells are
    all strings, or all integers, distinct key cells give distinct document
    IDs: with a key column of one type and no missing key, unique keys are
    enough for one document per row. *)
Theorem distinct_keys_distinct_ids df :
  well_formed df ->
  KEY_COLUMN ∈ columns df ->
  forallb is_str (key_cells df) = true \/ forallb is_int (key_cells df) = true ->
  NoDup (key_cells df) ->
  NoDup (map (fun r => doc_id (normalise r)) (to_dict_records df)).
Proof.
  intros Hwf Hkey Htype Hnd. rewrite doc_ids_of_key_cells by done.
  apply (NoDup_fmap_2_strong (fun v => py_str (fill v))); [|done].
  intros u v Hu Hv Heq. apply list_elem_of_In in Hu, Hv.
  destruct Htype as [Hty|Hty]; rewrite forallb_forall in Hty;
    pose proof (Hty _ Hu) as Htu; pose proof (Hty _ Hv) as Htv;
    destruct u, v; try done; simpl in Heq.
  - by rewrite Heq.
  - by apply (inj pretty) in Heq as ->.
Qed.

Lemma distinct_keys_distinct_ids_witness :
  NoDup (map (fun r => doc_id (normalise r))
           (to_dict_records (mkDataFrame ["pick_id"; "team"]
                               [[Int 10; Str "A"]; [Int (-3); NaN]; [Int 0; NaN]]))).
Proof.
  apply distinct_keys_distinct_ids.
  - repeat apply Forall_cons_2; [reflexivity..|apply Forall_nil_2].
  - apply list_elem_of_here.
  - right. reflexivity.
  - apply (bool_decide_unpack _). vm_compute. exact I.
Defined.

(** ** The order of the rows *)

Lemma apply_writes_list_to_map ws s :
  apply_writes ws s = list_to_map (reverse ws) ∪ s.
Proof.
  induction ws as [|[ref body] ws IH] using rev_ind.
  - simpl. by rewrite (left_id_L ∅ (∪)).
  - rewrite apply_writes_app, reverse_app. simpl.
    change (apply_writes [(ref, body)] (apply_writes ws s))
      with (<[ref:=body]> (apply_writes ws s)).
    by rewrite IH, insert_union_l.
Qed.

Lemma apply_writes_Permutation ws1 ws2 s :
  NoDup ws1.*1 -> ws1 ≡ₚ ws2 -> apply_writes ws1 s = apply_writes ws2 s.
Proof.
  intros Hnd Hperm. rewrite !apply_writes_list_to_map. f_equal.
  apply list_to_map_proper.
  - by rewrite fmap_reverse, reverse_Permutation.
  - by rewrite !reverse_Permutation.
Qed.

(** X10.  With distinct document IDs the order of the rows plays no part:
    for a client that does not raise, two well-formed tables with the same
    columns, the key column among them, and the same rows in another order
    leave the same database. *)
Theorem row_order_is_irrelevant fs l1 l2 w :
  reliable fs ->
  well_formed (heap w !!! l1) ->
  well_formed (heap w !!! l2) ->
  columns (heap w !!! l2) = columns (heap w !!! l1) ->
  rows (heap w !!! l1) ≡ₚ rows (heap w !!! l2) ->
  rows (heap w !!! l1) <> [] ->
  KEY_COLUMN ∈ columns (heap w !!! l1) ->
  NoDup (map (fun r => doc_id (normalise r)) (to_dict_records (heap w !!! l1))) ->
  store (exec (update_firebase fs (Some l1)) w) =
  store (exec (update_firebase fs (Some l2)) w).
Proof.
  intros Hfs Hwf1 Hwf2 Hcols Hperm Hrows Hkey Hnd.
  assert (Hrows2 : rows (heap w !!! l2) <> []).
  { intros Hnil. rewrite Hnil in Hperm. by apply Permutation_nil_r in Hperm. }
  assert (Hkey2 : KEY_COLUMN ∈ columns (heap w !!! l2)) by (by rewrite Hcols).
  rewrite (exec_eq _ _ _ _ (update_firebase_reliable fs l1 w Hfs Hwf1
             (not_empty_frame _ Hrows Hkey) Hkey)).
  rewrite (exec_eq _ _ _ _ (update_firebase_reliable fs l2 w Hfs Hwf2
             (not_empty_frame _ Hrows2 Hkey2) Hkey2)).
  simpl. apply apply_writes_Permutation; [by apply batch_of_NoDup|].
  unfold batch_of, to_dict_records. rewrite Hcols.
  by do 2 apply fmap_Permutation.
Qed.

Lemma row_order_is_irrelevant_witness :
  store (exec (update_firebase fs_ok (Some 0))
           (mkWorld [mkDataFrame ["pick_id"; "team"] [[Int 1; Str "A"]; [Int 2; NaN]];
                     mkDataFrame ["pick_id"; "team"] [[Int 2; NaN]; [Int 1; Str "A"]]] ∅ [])) =
  store (exec (update_firebase fs_ok (Some 1))
           (mkWorld [mkDataFrame ["pick_id"; "team"] [[Int 1; Str "A"]; [Int 2; NaN]];
                     mkDataFrame ["pick_id"; "team"] [[Int 2; NaN]; [Int 1; Str "A"]]] ∅ [])).
Proof.
  apply (row_order_is_irrelevant fs_ok 0 1).
  - exact fs_ok_reliable.
  - repeat apply Forall_cons_2; [reflexivity..|apply Forall_nil_2].
  - repeat apply Forall_cons_2; [reflexivity..|apply Forall_nil_2].
  - reflexivity.
  - apply perm_swap.
  - discriminate.
  - apply list_elem_of_here.
  - apply (bool_decide_unpack _). vm_compute. exact I.
Defined.

(** ** One run after another *)

Lemma batch_of_append_rows df1 df2 :
  columns df2 = columns df1 ->
  batch_of (append_rows df1 df2) = batch_of df1 ++ batch_of df2.
Proof.
  intros Hcols. unfold batch_of, to_dict_records, append_rows. simpl.
  by rewrite Hcols, !map_app.
Qed.

(** X11.  Runs compose.  For a client that does not raise and two
    well-formed, non-empty tables with the same columns, the key column
    among them: the writer run on the first table and then on the second
    leaves the database that one run leaves on the table with the rows of
    the first followed by the rows of the second.  Where both tables have a
    row for a document, the second table decides. *)
Theorem runs_compose fs l1 l2 l3 w df1 df2 :
  reliable fs ->
  heap w !! l1 = Some df1 ->
  heap w !! l2 = Some df2 ->
  heap w !! l3 = Some (append_rows df1 df2) ->
  well_formed df1 -> well_formed df2 ->
  columns df2 = columns df1 ->
  rows df1 <> [] -> rows df2 <> [] ->
  KEY_COLUMN ∈ columns df1 ->
  store (exec (update_firebase fs (Some l2)) (exec (update_firebase fs (Some l1)) w)) =
  store (exec (update_firebase fs (Some l3)) w).
Proof.
  intros Hfs Hl1 Hl2 Hl3 Hwf1 Hwf2 Hcols Hrows1 Hrows2 Hkey.
  assert (Hkey2 : KEY_COLUMN ∈ columns df2) by (by rewrite Hcols).
  pose proof (list_lookup_total_correct _ _ _ Hl1) as Ht1.
  pose proof (list_lookup_total_correct _ _ _ Hl3) as Ht3.
  assert (Hrun1 := update_firebase_reliable fs l1 w Hfs).
  rewrite Ht1 in Hrun1.
  specialize (Hrun1 Hwf1 (not_empty_frame _ Hrows1 Hkey) Hkey).
  rewrite (exec_eq _ _ _ _ Hrun1).
  set (w1 := mkWorld _ _ _).
  assert (Ht2 : heap w1 !!! l2 = df2).
  { apply list_lookup_total_correct. unfold w1. simpl. by apply lookup_app_l_Some. }
  assert (Hrun2 := update_firebase_reliable fs l2 w1 Hfs).
  rewrite Ht2 in Hrun2.
  specialize (Hrun2 Hwf2 (not_empty_frame _ Hrows2 Hkey2) Hkey2).
  rewrite (exec_eq _ _ _ _ Hrun2).
  assert (Hrun3 := update_firebase_reliable fs l3 w Hfs).
  rewrite Ht3 in Hrun3.
  assert (Hwf3 : well_formed (append_rows df1 df2)).
  { unfold well_formed, append_rows. simpl. apply Forall_app. split; [done|].
    unfold well_formed in Hwf2. by rewrite Hcols in Hwf2. }
  assert (Hrows3 : rows (append_rows df1 df2) <> []).
  { unfold append_rows. simpl. intros Hnil. by apply app_eq_nil in Hnil as [? _]. }
  specialize (Hrun3 Hwf3 (not_empty_frame (append_rows df1 df2) Hrows3 Hkey) Hkey).
  rewrite (exec_eq _ _ _ _ Hrun3). simpl.
  by rewrite batch_of_append_rows, apply_writes_app.
Qed.

Lemma runs_compose_witness :
  store (exec (update_firebase fs_ok (Some 1))
           (exec (update_firebase fs_ok (Some 0))
              (mkWorld [mkDataFrame ["pick_id"; "team"] [[Int 1; Str "A"]; [Int 2; NaN]];
                        mkDataFrame ["pick_id"; "team"] [[Int 2; Str "B"]];
                        mkDataFrame ["pick_id"; "team"]
                          [[Int 1; Str "A"]; [Int 2; NaN]; [Int 2; Str "B"]]] ∅ []))) =
  store (exec (update_firebase fs_ok (Some 2))
           (mkWorld [mkDataFrame ["pick_id"; "team"] [[Int 1; Str "A"]; [Int 2; NaN]];
                     mkDataFrame ["pick_id"; "team"] [[Int 2; Str "B"]];
                     mkDataFrame ["pick_id"; "team"]
                       [[Int 1; Str "A"]; [Int 2; NaN]; [Int 2; Str "B"]]] ∅ [])).
Proof.
  apply (runs_compose fs_ok 0 1 2 _
           (mkDataFrame ["pick_id"; "team"] [[Int 1; Str "A"]; [Int 2; NaN]])
           (mkDataFrame ["pick_id"; "team"] [[Int 2; Str "B"]])).
  - exact fs_ok_reliable.
  - reflexivity.
  - reflexivity.
  - reflexivity.
  - repeat apply Forall_cons_2; [reflexivity..|apply Forall_nil_2].
  - repeat apply Forall_cons_2; [reflexivity..|apply Forall_nil_2].
  - reflexivity.
  - discriminate.
  - discriminate.
  - apply list_elem_of_here.
Defined.

(** ** A table that is already normalised *)

Lemma fill_idemp v : fill (fill v) = fill v.
Proof. by destruct v. Qed.

Lemma normalise_idemp record : normalise (normalise record) = normalise record.
Proof.
  unfold normalise. rewrite <- map_fmap_compose. apply map_fmap_ext.
  intros k v _. apply fill_idemp.
Qed.

Lemma fillna_idemp df : fillna (fillna df) = fillna df.
Proof.
  unfold fillna. simpl. f_equal. rewrite map_map. apply map_ext. intros row.
  rewrite map_map. apply map_ext. intros v. apply fill_idemp.
Qed.

Lemma df_empty_fillna df : df_empty (fillna df) = df_empty df.
Proof. unfold df_empty, fillna. simpl. by destruct (rows df). Qed.

(** X12.  The writer does not depend on whether its table was normalised
    before: whatever the client answers, [update_firebase] on a frame that
    is [fillna] of a table returns what it returns on the table itself and
    leaves the same world -- the same prints and client calls, the same
    database, the same new frame. *)
Theorem update_firebase_on_normalised_table fs l1 l2 w :
  heap w !!! l2 = fillna (heap w !!! l1) ->
  update_firebase fs (Some l2) w = update_firebase fs (Some l1) w.
Proof.
  intros Hl2. unfold update_firebase, load, bind at 1 4.
  rewrite Hl2, df_empty_fillna, fillna_idemp. done.
Qed.

Lemma update_firebase_on_normalised_table_witness :
  update_firebase fs_ok (Some 1)
    (mkWorld [mkDataFrame ["pick_id"; "team"] [[Int 1; NaN]; [NaN; Str "B"]];
              mkDataFrame ["pick_id"; "team"] [[Int 1; Str ""]; [Str ""; Str "B"]]] ∅ []) =
  update_firebase fs_ok (Some 0)
    (mkWorld [mkDataFrame ["pick_id"; "team"] [[Int 1; NaN]; [NaN; Str "B"]];
              mkDataFrame ["pick_id"; "team"] [[Int 1; Str ""]; [Str ""; Str "B"]]] ∅ []).
Proof.
  apply (update_firebase_on_normalised_table fs_ok 0 1). reflexivity.
Defined.

(** ** The reader and the writer together *)

Lemma fetch_sheet_data_run gc w sh df :
  gc GOOGLE_SHEET_NAME = Ok sh ->
  sh WORKSHEET_NAME = Ok (Ok df) ->
  fetch_sheet_data gc w =
    (Ok (Some (length (heap w))),
     mkWorld (heap w ++ [dropna_all df]) (store w)
       (trace w ++ [Print (Msg_opening_sheet GOOGLE_SHEET_NAME);
                    Print (Msg_reading_worksheet WORKSHEET_NAME);
                    Print (Msg_fetched (df_len (dropna_all df)))])).
Proof.
  intros Hsh Hws. unfold fetch_sheet_data. run_monad.
  rewrite Hsh. simpl. rewrite Hws. simpl.
  rewrite <- (Nat.add_0_r (length (heap w))), alter_app_r, Nat.add_0_r. simpl.
  rewrite list_lookup_total_middle by done.
  by rewrite <- !(assoc_L (++)).
Qed.

Lemma fetch_sheet_data_failure gc w e :
  read_error gc = Some e ->
  exists evs,
    fetch_sheet_data gc w =
      (Ok None, with_trace w (evs ++ [Print (Msg_fetch_failed e)])) /\
    Forall (fun ev => is_print ev = true) evs.
Proof.
  unfold read_error, fetch_sheet_data. run_monad.
  destruct (gc GOOGLE_SHEET_NAME) as [sh|e1]; simpl.
  2:{ intros [= ->]. exists [Print (Msg_opening_sheet GOOGLE_SHEET_NAME)].
      unfold with_trace. simpl. rewrite <- !(assoc_L (++)).
      split; [done|by apply Forall_cons_2]. }
  destruct (sh WORKSHEET_NAME) as [[df|e1]|e1]; simpl; [done| |]; intros [= ->].
  - exists [Print (Msg_opening_sheet GOOGLE_SHEET_NAME);
            Print (Msg_reading_worksheet WORKSHEET_NAME)].
    unfold with_trace. simpl. rewrite <- !(assoc_L (++)).
    split; [done|by repeat apply Forall_cons_2].
  - exists [Print (Msg_opening_sheet GOOGLE_SHEET_NAME)].
    unfold with_trace. simpl. rewrite <- !(assoc_L (++)).
    split; [done|by apply Forall_cons_2].
Qed.

(** X13.  When opening the spreadsheet, opening the worksheet or reading it
    raises, the reader returns [None] and the run ends without any call of
    the Firestore client: the frames and the database are as they were, and
    the last two lines printed are the read failure, with the exception,
    and the no-data line of the writer. *)
Theorem sync_read_failure fs gc w e :
  read_error gc = Some e ->
  (fetch_sheet_data gc w).1 = Ok None /\
  (sync fs gc w).1 = Ok tt /\
  heap (exec (sync fs gc) w) = heap w /\
  store (exec (sync fs gc) w) = store w /\
  exists evs,
    events_of (sync fs gc) w =
      evs ++ [Print (Msg_fetch_failed e); Print Msg_no_data] /\
    Forall (fun ev => is_print ev = true) evs.
Proof.
  intros Herr. destruct (fetch_sheet_data_failure gc w e Herr) as (evs & Hrun & Hevs).
  split; [by rewrite Hrun|].
  assert (Hsync : sync fs gc w =
    (Ok tt, with_trace w (evs ++ [Print (Msg_fetch_failed e); Print Msg_no_data]))).
  { unfold sync, bind. rewrite Hrun. simpl. run_monad.
    unfold with_trace. simpl. by rewrite <- !(assoc_L (++)). }
  rewrite (events_of_with_trace _ _ _ (exec_eq _ _ _ _ Hsync)), (exec_eq _ _ _ _ Hsync).
  rewrite Hsync. repeat split; try done. by exists evs.
Qed.

Lemma sync_read_failure_witness :
  store (exec (sync fs_ok (fun _ => Raise (ClientError "SpreadsheetNotFound")))
           (mkWorld [] {[ ("live_picks", "9") := ∅ ]} [])) =
  {[ ("live_picks", "9") := ∅ ]}.
Proof.
  destruct (sync_read_failure fs_ok (fun _ => Raise (ClientError "SpreadsheetNotFound"))
              (mkWorld [] {[ ("live_picks", "9") := ∅ ]} [])
              (ClientError "SpreadsheetNotFound"))
    as (_ & _ & _ & Hstore & _).
  - reflexivity.
  - exact Hstore.
Defined.

Lemma dropna_all_none df :
  Forall (fun row => forallb isna row = true) (rows df) ->
  dropna_all df = mkDataFrame (columns df) [].
Proof.
  unfold dropna_all. intros Hall. f_equal.
  induction Hall as [|row rs Hrow _ IH]; simpl; [done|]. by rewrite Hrow.
Qed.

(** X14.  A worksheet in which every row has only missing cells (or that has
    no row) gives no write: the reader drops every row, the writer sees an
    empty table, prints the no-data line and calls the Firestore client not
    once; the database is as it was. *)
Theorem sync_all_rows_empty fs gc w sh df :
  gc GOOGLE_SHEET_NAME = Ok sh ->
  sh WORKSHEET_NAME = Ok (Ok df) ->
  Forall (fun row => forallb isna row = true) (rows df) ->
  sync fs gc w =
    (Ok tt,
     mkWorld (heap w ++ [mkDataFrame (columns df) []]) (store w)
       (trace w ++ [Print (Msg_opening_sheet GOOGLE_SHEET_NAME);
                    Print (Msg_reading_worksheet WORKSHEET_NAME);
                    Print (Msg_fetched 0);
                    Print Msg_no_data])).
Proof.
  intros Hsh Hws Hall. unfold sync, bind.
  rewrite (fetch_sheet_data_run gc w sh df Hsh Hws), (dropna_all_none df Hall).
  unfold update_firebase, load, bind. simpl.
  rewrite list_lookup_total_middle by done. simpl.
  run_monad. by rewrite <- !(assoc_L (++)).
Qed.

Lemma sync_all_rows_empty_witness :
  store (exec (sync fs_ok (gc_of (mkDataFrame ["pick_id"; "team"] [[NaN; NaN]; [NaN; NaN]])))
           w0) = ∅.
Proof.
  unfold exec.
  rewrite (sync_all_rows_empty fs_ok
             (gc_of (mkDataFrame ["pick_id"; "team"] [[NaN; NaN]; [NaN; NaN]])) w0
             (fun _ => Ok (Ok (mkDataFrame ["pick_id"; "team"] [[NaN; NaN]; [NaN; NaN]])))
             (mkDataFrame ["pick_id"; "team"] [[NaN; NaN]; [NaN; NaN]])).
  - reflexivity.
  - reflexivity.
  - reflexivity.
  - repeat apply Forall_cons_2; [reflexivity..|apply Forall_nil_2].
Defined.

Lemma well_formed_dropna_all df : well_formed df -> well_formed (dropna_all df).
Proof.
  unfold well_formed, dropna_all. simpl. intros Hwf.
  apply Forall_forall. intros row Hrow.
  apply list_elem_of_In, filter_In in Hrow as [Hrow _].
  rewrite Forall_forall in Hwf. by apply Hwf, list_elem_of_In.
Qed.

(** X15.  End to end.  When the worksheet reads as a well-formed frame with
    the key column and some row with a cell that is not missing, and no call
    of the Firestore client raises, the run commits one [set] per row that
    has a cell that is not missing, in sheet order, and none for the other
    rows; it creates two frames, the filtered table and its normalised
    copy. *)
Theorem sync_writes_kept_rows fs gc w sh df row :
  reliable fs ->
  gc GOOGLE_SHEET_NAME = Ok sh ->
  sh WORKSHEET_NAME = Ok (Ok df) ->
  well_formed df ->
  KEY_COLUMN ∈ columns df ->
  row ∈ rows df -> forallb isna row = false ->
  (sync fs gc w).1 = Ok tt /\
  store (exec (sync fs gc) w) = apply_writes (batch_of (dropna_all df)) (store w) /\
  length (batch_of (dropna_all df)) =
    length (List.filter (fun row => negb (forallb isna row)) (rows df)) /\
  heap (exec (sync fs gc) w) = heap w ++ [dropna_all df; fillna (dropna_all df)] /\
  Call_commit (batch_of (dropna_all df)) ∈ events_of (sync fs gc) w.
Proof.
  intros Hfs Hsh Hws Hwf Hkey Hrow Hna.
  pose proof (fetch_sheet_data_run gc w sh df Hsh Hws) as Hfetch.
  set (w1 := mkWorld (heap w ++ [dropna_all df]) (store w) _) in Hfetch.
  assert (Hload : heap w1 !!! length (heap w) = dropna_all df).
  { unfold w1. simpl. by apply list_lookup_total_middle. }
  assert (Hrows : rows (dropna_all df) <> []).
  { intros Hnil. assert (Hin : row ∈ rows (dropna_all df)).
    { unfold dropna_all. simpl. apply list_elem_of_In, filter_In.
      split; [by apply list_elem_of_In | by rewrite Hna]. }
    rewrite Hnil in Hin. by apply elem_of_nil in Hin. }
  assert (Hrun := update_firebase_reliable fs (length (heap w)) w1 Hfs).
  rewrite Hload in Hrun.
  specialize (Hrun (well_formed_dropna_all df Hwf)
                (not_empty_frame (dropna_all df) Hrows Hkey) Hkey).
  assert (Hsync : sync fs gc w =
    (Ok tt,
     mkWorld (heap w1 ++ [fillna (dropna_all df)])
       (apply_writes (batch_of (dropna_all df)) (store w1))
       (trace w1 ++ complete_run (batch_of (dropna_all df))))).
  { unfold sync, bind. by rewrite Hfetch, Hrun. }
  unfold events_of. rewrite (exec_eq _ _ _ _ Hsync), Hsync. unfold w1. simpl.
  split; [done|]. split; [done|]. split; [|split].
  - rewrite batch_of_length. done.
  - by rewrite <- (assoc_L (++)).
  - rewrite <- (assoc_L (++)), drop_app_length.
    unfold complete_run, attempted_run. simpl.
    rewrite !elem_of_cons, !elem_of_app, !elem_of_cons. do 3 right.
    right. do 3 right. right. by left.
Qed.

Lemma sync_writes_kept_rows_witness :
  length (batch_of (dropna_all (mkDataFrame ["pick_id"; "team"]
                                  [[Int 1; NaN]; [NaN; NaN]; [Int 2; Str "B"]]))) = 2.
Proof.
  destruct (sync_writes_kept_rows fs_ok
              (gc_of (mkDataFrame ["pick_id"; "team"]
                        [[Int 1; NaN]; [NaN; NaN]; [Int 2; Str "B"]]))
              w0
              (fun _ => Ok (Ok (mkDataFrame ["pick_id"; "team"]
                                  [[Int 1; NaN]; [NaN; NaN]; [Int 2; Str "B"]])))
              (mkDataFrame ["pick_id"; "team"]
                 [[Int 1; NaN]; [NaN; NaN]; [Int 2; Str "B"]])
              [Int 1; NaN])
    as (_ & _ & Hlen & _).
  - exact fs_ok_reliable.
  - reflexivity.
  - reflexivity.
  - repeat apply Forall_cons_2; [reflexivity..|apply Forall_nil_2].
  - apply list_elem_of_here.
  - apply list_elem_of_here.
  - reflexivity.
  - exact Hlen.
Defined.

(** ** Set-up *)

Lemma prefix_append n h :
  String.prefix n h = true <-> exists post, h = n +:+ post.
Proof.
  revert h. induction n as [|a n IH]; intros [|b h]; simpl.
  - split; [intros _; by exists "" | done].
  - split; [intros _; by exists (String b h) | done].
  - split; [done|by intros [? ?]].
  - destruct (Ascii.ascii_dec a b) as [->|Hne].
    + rewrite IH. split; intros [post Hpost]; exists post; [by rewrite Hpost|].
      by injection Hpost.
    + split; [done|]. intros [post [= ? _]]. by destruct Hne.
Qed.

Lemma str_contains_unfold n h :
  str_contains n h =
  String.prefix n h ||
  match h with EmptyString => false | String _ rest => str_contains n rest end.
Proof. by destruct h. Qed.

(** [needle in haystack] holds exactly when the haystack is some text, the
    needle, and some text. *)
Lemma str_contains_spec n h :
  str_contains n h = true <-> exists pre post, h = pre +:+ n +:+ post.
Proof.
  induction h as [|c h IH]; rewrite str_contains_unfold.
  - rewrite orb_false_r, prefix_append. split.
    + intros [post ->]. by exists "", post.
    + intros ([|? ?] & post & Hpre); [by exists post | done].
  - rewrite orb_true_iff, prefix_append, IH. split.
    + intros [[post ->]|(pre & post & ->)]; [by exists "", post|].
      by exists (String c pre), post.
    + intros ([|c' pre] & post & Hpre); [left; by exists post|].
      right. exists pre, post. simpl in Hpre. by injection Hpre.
Qed.

(** X16.  [initialize_firebase] reports the document store ready in two
    cases only: when neither loading the certificate nor initialising the
    app raises, and when the exception raised has the text "already exists"
    somewhere in its message.  The second case does not look at which call
    raised: a certificate that fails to load with such a message counts as
    ready too. *)
Theorem initialize_firebase_ready g :
  ((initialize_firebase g).1 = true <->
   initialize_error g = None \/
   exists pre post, initialize_error g = Some (pre +:+ "already exists" +:+ post)) /\
  (forall pre post,
     certificate g CREDENTIALS_FILE = inl (pre +:+ "already exists" +:+ post) ->
     (initialize_firebase g).1 = true).
Proof.
  assert (Hiff : (initialize_firebase g).1 = true <->
    initialize_error g = None \/
    exists pre post, initialize_error g = Some (pre +:+ "already exists" +:+ post)).
  { unfold initialize_firebase. destruct (initialize_error g) as [e|]; simpl.
    - destruct (str_contains "already exists" e) eqn:Hc; simpl.
      + apply str_contains_spec in Hc as (pre & post & ->).
        split; [intros _; right; by exists pre, post | done].
      + split; [done|]. intros [?|(pre & post & [= ->])]; [done|].
        assert (str_contains "already exists" (pre +:+ "already exists" +:+ post) = true)
          as Hc' by (apply str_contains_spec; by exists pre, post).
        by rewrite Hc in Hc'.
    - split; [by left | done]. }
  split; [done|]. intros pre post Hcert. apply Hiff. right. exists pre, post.
  unfold initialize_error. by rewrite Hcert.
Qed.

Lemma initialize_firebase_ready_witness :
  (initialize_firebase
     (mkGoogle (fun _ _ => inl "no file")
        (fun _ => inl "lock file already exists: credentials.json")
        (fun _ => None))).1 = true.
Proof.
  apply (proj2 (initialize_firebase_ready
                  (mkGoogle (fun _ _ => inl "no file")
                     (fun _ => inl "lock file already exists: credentials.json")
                     (fun _ => None)))
           "lock file " ": credentials.json").
  reflexivity.
Defined.

(** ** The main block *)

Lemma fetch_sheet_data_returns gc w :
  exists data_df, (fetch_sheet_data gc w).1 = Ok data_df.
Proof.
  destruct (read_error gc) as [e|] eqn:Herr.
  - destruct (fetch_sheet_data_failure gc w e Herr) as (evs & -> & _). by eexists.
  - unfold read_error in Herr.
    destruct (gc GOOGLE_SHEET_NAME) as [sh|] eqn:Hsh; [|done].
    destruct (sh WORKSHEET_NAME) as [[df|]|] eqn:Hws; try done.
    rewrite (fetch_sheet_data_run gc w sh df Hsh Hws). by eexists.
Qed.

Lemma update_firebase_returns fs data_df w :
  (update_firebase fs data_df w).1 = Ok tt.
Proof.
  destruct (update_firebase_cases fs data_df w)
    as [[-> _]|[(l & -> & _ & _ & ->)|(l & -> & Hne & Hkey)]]; [done..|].
  by rewrite update_firebase_paths.
Qed.

Lemma sync_returns fs gc w : (sync fs gc w).1 = Ok tt.
Proof.
  unfold sync, bind. destruct (fetch_sheet_data_returns gc w) as [data_df Hret].
  destruct (fetch_sheet_data gc w) as [r w1]. simpl in Hret. subst r.
  apply update_firebase_returns.
Qed.

Lemma main_unfold g fs w :
  main g fs w =
  match (authenticate_gspread g).1 with
  | Some gc =>
      if (initialize_firebase g).1
      then ((authenticate_gspread g).2 ++ (initialize_firebase g).2, sync fs gc w)
      else ((authenticate_gspread g).2 ++ (initialize_firebase g).2 ++ [EXITING],
            (Ok tt, w))
  | None =>
      ((authenticate_gspread g).2 ++ (initialize_firebase g).2 ++ [EXITING], (Ok tt, w))
  end.
Proof.
  unfold main. destruct (authenticate_gspread g) as [gc out1].
  by destruct (initialize_firebase g) as [ready out2].
Qed.

Lemma set_up_lines_not_exiting g :
  EXITING ∉ (authenticate_gspread g).2 ++ (initialize_firebase g).2.
Proof.
  unfold authenticate_gspread, initialize_firebase, EXITING.
  destruct (service_account _ _ _) as [e|gc]; simpl;
    (destruct (initialize_error g) as [e'|]; [destruct (str_contains _ e')|]); simpl;
    rewrite !elem_of_cons, elem_of_nil;
    intros Hin; repeat (destruct Hin as [Hin|Hin]; try discriminate Hin); done.
Qed.

(** X17.  When authentication returns no Sheets client, or the document
    store is not reported ready, the main block reads no sheet and calls the
    Firestore client not once: the world is the one it started in.  Both
    set-up functions have run all the same -- the store is initialised even
    after a failed authentication -- and the last line printed is the exit
    line. *)
Theorem main_not_ready g fs w :
  (authenticate_gspread g).1 = None \/ (initialize_firebase g).1 = false ->
  (main g fs w).2 = (Ok tt, w) /\
  (main g fs w).1 =
    (authenticate_gspread g).2 ++ (initialize_firebase g).2 ++ [EXITING] /\
  last (main g fs w).1 = Some EXITING /\
  "Authenticating with Google Sheets..." ∈ (main g fs w).1 /\
  "Initializing Firebase (Cloud Firestore)..." ∈ (main g fs w).1.
Proof.
  intros Hnot.
  assert (Hmain : main g fs w =
    ((authenticate_gspread g).2 ++ (initialize_firebase g).2 ++ [EXITING], (Ok tt, w))).
  { rewrite main_unfold. destruct Hnot as [->| ->]; [done|].
    by destruct (authenticate_gspread g).1. }
  rewrite Hmain. simpl. split; [done|]. split; [done|]. split; [|split].
  - by rewrite (assoc_L (++)), last_snoc.
  - apply elem_of_app. left. unfold authenticate_gspread.
    destruct (service_account _ _ _); apply list_elem_of_here.
  - apply elem_of_app. right. apply elem_of_app. left. unfold initialize_firebase.
    destruct (initialize_error g) as [e|]; [destruct (str_contains _ e)|];
      apply list_elem_of_here.
Qed.

Lemma main_not_ready_witness :
  (main (mkGoogle (fun _ _ => inl "credentials.json not found")
           (fun path => inr (Credential path)) (fun _ => None))
        fs_ok (mkWorld [] {[ ("live_picks", "9") := ∅ ]} [])).2 =
  (Ok tt, mkWorld [] {[ ("live_picks", "9") := ∅ ]} []).
Proof.
  apply (main_not_ready
           (mkGoogle (fun _ _ => inl "credentials.json not found")
              (fun path => inr (Credential path)) (fun _ => None))).
  left. reflexivity.
Defined.

(** X18.  When authentication returns a Sheets client and the document store
    is reported ready -- also when it is only tolerated as already
    initialised -- the main block does what the reader followed by the
    writer does with that client, and does not print the exit line. *)
Theorem main_ready g fs w gc :
  (authenticate_gspread g).1 = Some gc ->
  (initialize_firebase g).1 = true ->
  (main g fs w).2 = sync fs gc w /\
  (main g fs w).1 = (authenticate_gspread g).2 ++ (initialize_firebase g).2 /\
  EXITING ∉ (main g fs w).1.
Proof.
  intros Hgc Hready. rewrite main_unfold, Hgc, Hready. simpl.
  split; [done|]. split; [done|]. apply set_up_lines_not_exiting.
Qed.

Lemma main_ready_witness :
  (main (mkGoogle (fun _ _ => inr (gc_of (mkDataFrame ["pick_id"] [[Int 4]])))
           (fun path => inr (Credential path))
           (fun _ => Some "The default Firebase app already exists."))
        fs_ok w0).2 =
  sync fs_ok (gc_of (mkDataFrame ["pick_id"] [[Int 4]])) w0.
Proof.
  apply (main_ready
           (mkGoogle (fun _ _ => inr (gc_of (mkDataFrame ["pick_id"] [[Int 4]])))
              (fun path => inr (Credential path))
              (fun _ => Some "The default Firebase app already exists."))).
  - reflexivity.
  - reflexivity.
Defined.

(** X19.  No exception leaves the program: whatever the external services
    answer or raise, the reader returns (a table or [None]), the reader
    followed by the writer returns, and so does the main block. *)
Theorem main_never_raises g fs gc w :
  (exists data_df, (fetch_sheet_data gc w).1 = Ok data_df) /\
  (sync fs gc w).1 = Ok tt /\
  ((main g fs w).2).1 = Ok tt.
Proof.
  split; [apply fetch_sheet_data_returns|]. split; [apply sync_returns|].
  rewrite main_unfold. destruct (authenticate_gspread g).1 as [gc'|]; [|done].
  destruct (initialize_firebase g).1; [apply sync_returns | done].
Qed.

(** ** A call that raises in the loop *)

Lemma for_each_stage_prefix fs b records rest w :
  Forall (fun record => is_Some (record !! KEY_COLUMN) /\
                        document_raises fs (ref_of record) = None /\
                        set_raises fs (ref_of record) record = None) records ->
  for_each (stage_record fs) b (records ++ rest) w =
  for_each (stage_record fs) (b ++ map write_of records) rest
    (with_trace w (staging_events (map write_of records))).
Proof.
  intros Hall. revert b w.
  induction Hall as [|record records ([v Hv] & Hdoc & Hset) _ IH]; intros b w; simpl.
  - by rewrite app_nil_r, with_trace_nil.
  - assert (Href : ref_of record = (FIRESTORE_COLLECTION, py_str v)).
    { unfold ref_of, doc_id. by rewrite (lookup_total_correct _ _ _ Hv). }
    unfold bind at 1, stage_record at 1, getitem, bind at 1. rewrite Hv. simpl.
    unfold collection_document, batch_set, call, bind, emit, ret.
    rewrite <- Href, Hdoc. simpl. rewrite Hset. simpl.
    rewrite IH. unfold write_of at 3 5. unfold with_trace. simpl.
    by rewrite <- !(assoc_L (++)).
Qed.

Lemma stage_record_set_raises fs b record rest w e :
  is_Some (record !! KEY_COLUMN) ->
  document_raises fs (ref_of record) = None ->
  set_raises fs (ref_of record) record = Some e ->
  for_each (stage_record fs) b (record :: rest) w =
  (Raise e, with_trace w [Call_document (ref_of record); Call_set (ref_of record) record]).
Proof.
  intros [v Hv] Hdoc Hset. simpl.
  assert (Href : ref_of record = (FIRESTORE_COLLECTION, py_str v)).
  { unfold ref_of, doc_id. by rewrite (lookup_total_correct _ _ _ Hv). }
  unfold bind at 1, stage_record at 1, getitem, bind at 1. rewrite Hv. simpl.
  unfold collection_document, batch_set, call, bind, emit, ret, raise.
  rewrite <- Href, Hdoc. simpl. rewrite Hset. simpl.
  unfold with_trace. simpl. by rewrite <- !(assoc_L (++)).
Qed.

(** X20.  The loop stops at the first call that raises.  On a well-formed
    table with the key column, when [batch.set] raises for a row and no call
    before it raised, the rows before it have been staged, the rows after it
    are not looked at, [commit] is not called, the exception is reported and
    the database is as it was: the rows staged before the failure are not
    written either. *)
Theorem staging_stops_at_first_failure fs l w records1 record records2 e :
  well_formed (heap w !!! l) ->
  df_empty (heap w !!! l) = false ->
  KEY_COLUMN ∈ columns (heap w !!! l) ->
  client_raises fs = None ->
  batch_raises fs = None ->
  to_dict_records (heap w !!! l) = records1 ++ record :: records2 ->
  Forall (fun r => document_raises fs (document_of r).1 = None /\
                   set_raises fs (document_of r).1 (document_of r).2 = None) records1 ->
  document_raises fs (document_of record).1 = None ->
  set_raises fs (document_of record).1 (document_of record).2 = Some e ->
  events_of (update_firebase fs (Some l)) w =
    [Print (Msg_connecting FIRESTORE_COLLECTION); Call_client; Call_batch;
     Print (Msg_preparing (length (rows (heap w !!! l))))] ++
    staging_events (map document_of records1) ++
    [Call_document (document_of record).1;
     Call_set (document_of record).1 (document_of record).2;
     Print (Msg_update_failed e)] /\
  store (exec (update_firebase fs (Some l)) w) = store w.
Proof.
  intros Hwf Hne Hkey Hclient Hbatch Hsplit Hbefore Hdoc Hset.
  assert (Hhas : forall r, r ∈ to_dict_records (heap w !!! l) ->
                           is_Some (normalise r !! KEY_COLUMN)).
  { intros r Hr. rewrite normalise_lookup.
    destruct (proj2 (to_dict_records_has_column _ r KEY_COLUMN Hwf Hr) Hkey) as [v ->].
    by eexists. }
  assert (Hrun : for_each (stage_record fs) []
                   (to_dict_records (fillna (heap w !!! l))) w0 =
    (Raise e,
     with_trace w0 (staging_events (map document_of records1) ++
                    [Call_document (document_of record).1;
                     Call_set (document_of record).1 (document_of record).2]))).
  { rewrite to_dict_records_fillna, Hsplit, map_app. simpl.
    rewrite for_each_stage_prefix.
    - rewrite (stage_record_set_raises fs _ (normalise record) _ _ e); try done.
      + by rewrite with_trace_app, document_of_write_of.
      + apply Hhas. rewrite Hsplit. apply elem_of_app. right. apply list_elem_of_here.
    - apply Forall_fmap, Forall_forall. intros r Hr. simpl.
      rewrite Forall_forall in Hbefore. destruct (Hbefore r Hr) as [? ?].
      split; [|done]. apply Hhas. rewrite Hsplit. apply elem_of_app. by left. }
  unfold events_of, exec. rewrite update_firebase_paths by done.
  rewrite Hclient, Hbatch. unfold staged_world. unfold staging_result, staging_trace.
  rewrite Hrun. simpl. split; [|done].
  rewrite <- !(assoc_L (++)), drop_app_length. simpl.
  rewrite to_dict_records_fillna, length_map. unfold to_dict_records at 1.
  rewrite length_map. by rewrite <- ?(assoc_L (++)).
Qed.

Lemma staging_stops_at_first_failure_witness :
  store (exec (update_firebase
                 (mkFirestore None None (fun _ => None)
                    (fun ref _ => if decide (ref = ("live_picks", "2"))
                                  then Some (ClientError "bad value") else None)
                    (fun _ => None))
                 (Some 0))
           (world_of (mkDataFrame ["pick_id"] [[Int 1]; [Int 2]; [Int 3]]))) = ∅.
Proof.
  apply (staging_stops_at_first_failure
           (mkFirestore None None (fun _ => None)
              (fun ref _ => if decide (ref = ("live_picks", "2"))
                            then Some (ClientError "bad value") else None)
              (fun _ => None))
           0 (world_of (mkDataFrame ["pick_id"] [[Int 1]; [Int 2]; [Int 3]]))
           [py_dict [("pick_id", Int 1)]] (py_dict [("pick_id", Int 2)])
           [py_dict [("pick_id", Int 3)]] (ClientError "bad value")).
  - repeat apply Forall_cons_2; [reflexivity..|apply Forall_nil_2].
  - reflexivity.
  - apply list_elem_of_here.
  - reflexivity.
  - reflexivity.
  - reflexivity.
  - apply Forall_cons_2; [|apply Forall_nil_2]. split; vm_compute; reflexivity.
  - reflexivity.
  - vm_compute. reflexivity.
Defined.
